(** * Room state synchronisation of ddd-dice-sync (netlify/functions/sync.js)

    Shallow embedding of the player-management variant of the serverless
    [Room] class and of its request handlers, and of the polling loop of
    the browser client [DDDSyncClient].

    Conventions of the model:
    - every [new Date()] / [Date.now()] taken while one request is served is
      the same instant [now : Z] (milliseconds);
    - a JS [Map] is an association list with the JS semantics: [set] on an
      existing key keeps its position, on a new key appends, [delete] removes,
      iteration is in list order;
    - the message [id] ([Date.now() + Math.random()]) is not read anywhere
      and is not modelled. *)

From Stdlib Require Import String List ZArith Bool Lia.
Import ListNotations.


(** ** JS [Map] as an insertion-ordered association list *)

Section JsMap.
Context {V : Type}.

Fixpoint map_get (k : string) (m : list (string * V)) : option V :=
  match m with
  | [] => None
  | (k', v) :: t => if String.eqb k k' then Some v else map_get k t
  end.

Definition map_has (k : string) (m : list (string * V)) : bool :=
  match map_get k m with Some _ => true | None => false end.

Definition map_delete (k : string) (m : list (string * V)) : list (string * V) :=
  filter (fun kv => negb (String.eqb k (fst kv))) m.

Fixpoint map_set (k : string) (v : V) (m : list (string * V)) : list (string * V) :=
  match m with
  | [] => [(k, v)]
  | (k', v') :: t =>
      if String.eqb k k' then (k, v) :: t else (k', v') :: map_set k v t
  end.

Definition map_values (m : list (string * V)) : list V := map snd m.

Definition map_keys (m : list (string * V)) : list string := map fst m.
End JsMap.

(** ** Data *)

(** A player object as sent by the client, after the server's spread
    [{...playerData, sessionId, isActive, lastUpdated}]. *)
Record Player := mkPlayer {
  pname : string;
  pIsActive : bool;
  pSessionId : option string;
  pLastUpdated : option Z
}.

(** The JS value handed to [updatePlayerData] as [playersArray]: an array,
    a single player object, or [null]/[undefined]. *)
Inductive PlayersArg :=
| PArr (ps : list Player)
| PObj (p : Player)
| PNull.

Record Participant := mkParticipant {
  joinedAt : Z;
  lastSeen : Z
}.

Record TimerState := mkTimerState {
  isRunning : bool;
  remainingTime : Z;
  duration : Z;
  startTime : option Z;
  lastUpdatedBy : option string;
  lastUpdatedAt : option Z
}.

Inductive Payload :=
| DiceRoll (values : list Z)
| TimerSync (t : TimerState)
| PlayersUpdate (players : list Player).

Record Message := mkMessage {
  payload : Payload;
  fromSession : string;
  timestamp : Z
}.

Definition msg_type (m : Message) : string :=
  match payload m with
  | DiceRoll _ => "dice-roll"%string
  | TimerSync _ => "timer-sync"%string
  | PlayersUpdate _ => "players-update"%string
  end.

Record Room := mkRoom {
  id : string;
  participants : list (string * Participant);
  currentDiceValues : option (list Z);
  timerState : TimerState;
  players : list (string * list Player);
  messages : list Message;
  createdAt : Z;
  lastActivity : Z
}.

Definition set_participants (ps : list (string * Participant)) (r : Room) : Room :=
  mkRoom (id r) ps (currentDiceValues r) (timerState r) (players r)
         (messages r) (createdAt r) (lastActivity r).
Definition set_players (pl : list (string * list Player)) (r : Room) : Room :=
  mkRoom (id r) (participants r) (currentDiceValues r) (timerState r) pl
         (messages r) (createdAt r) (lastActivity r).
Definition set_messages (ms : list Message) (r : Room) : Room :=
  mkRoom (id r) (participants r) (currentDiceValues r) (timerState r) (players r)
         ms (createdAt r) (lastActivity r).
Definition set_dice (d : option (list Z)) (r : Room) : Room :=
  mkRoom (id r) (participants r) d (timerState r) (players r)
         (messages r) (createdAt r) (lastActivity r).
Definition set_timer (t : TimerState) (r : Room) : Room :=
  mkRoom (id r) (participants r) (currentDiceValues r) t (players r)
         (messages r) (createdAt r) (lastActivity r).
Definition touch (now : Z) (r : Room) : Room :=
  mkRoom (id r) (participants r) (currentDiceValues r) (timerState r) (players r)
         (messages r) (createdAt r) now.

(** [new Room(id)] *)
Definition new_room (rid : string) (now : Z) : Room :=
  mkRoom rid [] None (mkTimerState false 0 60 None None None) [] [] now now.

(** [arr.slice(-n)] for [n > 0]: the last [n] elements. *)
Definition slice_last {A} (n : nat) (l : list A) : list A :=
  skipn (length l - n) l.

(** ** Room methods *)

Definition addParticipant (now : Z) (sid : string) (r : Room) : Room :=
  touch now (set_participants (map_set sid (mkParticipant now now) (participants r)) r).

Definition removeParticipant (now : Z) (sid : string) (r : Room) : Room :=
  touch now (set_players (map_delete sid (players r))
                         (set_participants (map_delete sid (participants r)) r)).

Definition count_active (ps : list Player) : nat := length (filter pIsActive ps).

Definition getPlayerData (r : Room) : list Player := concat (map_values (players r)).

Definition getActivePlayerCount (r : Room) : nat := count_active (getPlayerData r).

(** [updatePlayerData(sessionId, playersArray)]; the guard
    [playersArray && playersArray.length > 0] is false for a single object
    ([obj.length] is [undefined]) and for [null]/[undefined]. *)
Definition updatePlayerData (now : Z) (sid : string) (arg : PlayersArg) (r : Room) : Room :=
  let players1 := map_delete sid (players r) in
  let players2 :=
    match arg with
    | PArr ps =>
        if Nat.ltb 0 (length ps) then
          let activePlayersFromOtherSessions :=
            count_active (concat (map_values players1)) in
          let updatedPlayers :=
            map (fun playerData =>
                   mkPlayer (pname playerData)
                            (Nat.ltb activePlayersFromOtherSessions 4
                             || pIsActive playerData)
                            (Some sid) (Some now)) ps in
          map_set sid updatedPlayers players1
        else players1
    | PObj _ | PNull => players1
    end in
  touch now (set_players players2 r).

(** One step of the [for ... of this.participants] loop of
    [getParticipantCount]. *)
Fixpoint purge_stale (cutoff : Z) (ps : list (string * Participant)) (r : Room) : Room :=
  match ps with
  | [] => r
  | (sid, p) :: t =>
      purge_stale cutoff t
        (if Z.ltb (lastSeen p) cutoff
         then set_players (map_delete sid (players r))
                (set_participants (map_delete sid (participants r)) r)
         else r)
  end.

Definition five_minutes : Z := 5 * 60 * 1000.

(** [getParticipantCount()]: returns the purged room and the count. *)
Definition getParticipantCount (now : Z) (r : Room) : Room * nat :=
  let r' := purge_stale (now - five_minutes) (participants r) r in
  (r', length (participants r')).

Definition updateParticipant (now : Z) (sid : string) (r : Room) : Room :=
  match map_get sid (participants r) with
  | Some p =>
      touch now (set_participants
                   (map_set sid (mkParticipant (joinedAt p) now) (participants r)) r)
  | None => r
  end.

(** [addMessage(message)] *)
Definition addMessage (now : Z) (pl : Payload) (from : string) (r : Room) : Room :=
  let msgs := messages r ++ [mkMessage pl from now] in
  let msgs' := if Nat.ltb 50 (length msgs) then slice_last 50 msgs else msgs in
  touch now (set_messages msgs' r).

(** [getRecentMessages(since)]; a watermark sent by the client is the ISO
    string of an earlier response, which is truthy, so only [null]/absent
    takes the first branch. *)
Definition getRecentMessages (since : option Z) (msgs : list Message) : list Message :=
  match since with
  | None => slice_last 10 msgs
  | Some t => filter (fun msg => Z.ltb t (timestamp msg)) msgs
  end.

Definition isEmpty (now : Z) (r : Room) : Room * bool :=
  let '(r', n) := getParticipantCount now r in (r', Nat.eqb n 0).

(** ** Request handlers of the player-management [exports.handler]

    Each handler is given the room found by [rooms.get(roomId)] (the
    404 branch for an unknown room is not modelled) and returns the room
    as it is left in the registry together with the fields of the JSON
    response that depend on the room. *)

(** [/join-room]: [sessionId] is the freshly generated identifier. *)
Definition join_room (now : Z) (sid : string) (r : Room) : Room * nat :=
  getParticipantCount now (addParticipant now sid r).

(** [/sync-dice] *)
Definition sync_dice (now : Z) (sid : string) (diceValues : list Z) (r : Room)
  : Room * nat :=
  let r1 := updateParticipant now sid r in
  let r2 := set_dice (Some diceValues) r1 in
  let r3 := addMessage now (DiceRoll diceValues) sid r2 in
  getParticipantCount now r3.

(** [/sync-timer]: the client's fields, stamped with their provenance. *)
Definition sync_timer (now : Z) (sid : string) (ts : TimerState) (r : Room)
  : Room * nat :=
  let r1 := updateParticipant now sid r in
  let t := mkTimerState (isRunning ts) (remainingTime ts) (duration ts)
                        (startTime ts) (Some sid) (Some now) in
  let r2 := set_timer t r1 in
  let r3 := addMessage now (TimerSync t) sid r2 in
  getParticipantCount now r3.

(** The [isActive] computed per player by [/sync-players]:
    [room.getActivePlayerCount() < 4 ||
     (room.players.has(sessionId) && room.players.get(sessionId).isActive)];
    the stored value is an array, whose [isActive] is [undefined]. *)
Definition handler_isActive (sid : string) (rr : Room) : bool :=
  Nat.ltb (getActivePlayerCount rr) 4 || (map_has sid (players rr) && false).

(** [/sync-players] as it stands in the handler: each player object is
    passed on its own to [updatePlayerData].  The response carries
    [(participantCount, activePlayerCount, players)]. *)
Definition sync_players (now : Z) (sid : string) (ps : list Player) (r : Room)
  : Room * (nat * nat * list Player) :=
  let r1 := updateParticipant now sid r in
  let r2 :=
    fold_left
      (fun rr playerData =>
         let playerWithSession :=
           mkPlayer (pname playerData) (handler_isActive sid rr)
                    (Some sid) (pLastUpdated playerData) in
         updatePlayerData now sid (PObj playerWithSession) rr)
      ps r1 in
  let r3 := addMessage now (PlayersUpdate (getPlayerData r2)) sid r2 in
  let '(r4, cnt) := getParticipantCount now r3 in
  (r4, (cnt, getActivePlayerCount r4, getPlayerData r4)).

(** The stand-alone [/sync-players] fragment placed after the class
    ("Im sync-players Endpoint"), which hands the whole array over. *)
Definition sync_players_array (now : Z) (sid : string) (ps : list Player) (r : Room)
  : Room * (nat * nat * list Player) :=
  let r1 := updateParticipant now sid r in
  let r2 := updatePlayerData now sid (PArr ps) r1 in
  let r3 := addMessage now (PlayersUpdate (getPlayerData r2)) sid r2 in
  let '(r4, cnt) := getParticipantCount now r3 in
  (r4, (cnt, getActivePlayerCount r4, getPlayerData r4)).

Record PollResponse := mkPollResponse {
  resp_messages : list Message;
  resp_participantCount : nat;
  resp_activePlayerCount : nat;
  resp_currentDiceValues : option (list Z);
  resp_timerState : TimerState;
  resp_players : list Player;
  resp_timestamp : Z
}.

(** [/poll] *)
Definition poll (now : Z) (sid : string) (since : option Z) (r : Room)
  : Room * PollResponse :=
  let r1 := updateParticipant now sid r in
  let msgs := getRecentMessages since (messages r1) in
  let filteredMessages :=
    filter (fun msg => negb (String.eqb (fromSession msg) sid)) msgs in
  let '(r2, cnt) := getParticipantCount now r1 in
  (r2, mkPollResponse filteredMessages cnt (getActivePlayerCount r2)
                      (currentDiceValues r2) (timerState r2)
                      (getPlayerData r2) now).

(** [/leave-room] on an existing room: [None] when the room is deleted
    from the registry because it became empty. *)
Definition leave_room (now : Z) (sid : string) (r : Room) : option Room :=
  let r1 := removeParticipant now sid r in
  let r2 := addMessage now (PlayersUpdate (getPlayerData r1)) sid r1 in
  let '(r3, empty) := isEmpty now r2 in
  if empty then None else Some r3.

(** ** The polling loop of [DDDSyncClient] (src/unnamed/part_001)

    [pollPeriod] is the period given to [setInterval] by [startPolling];
    [pollDelay * 1.5] is written [pollDelay * 3 / 2], exact on the values
    reachable from 2000 (2000, 3000, 4500, 6750, then the 10000 cap). *)

Record PollClient := mkPollClient {
  pollDelay : Z;
  pollPeriod : option Z
}.

Inductive PollOutcome :=
| PollSuccess          (* response.success is true *)
| PollNoSuccess        (* a response whose success is false *)
| PollError.           (* makeRequest threw *)

Definition new_client : PollClient := mkPollClient 2000 None.

Definition startPolling (c : PollClient) : PollClient :=
  mkPollClient (pollDelay c) (Some (pollDelay c)).

(** One run of the [setInterval] callback. *)
Definition poll_tick (c : PollClient) (o : PollOutcome) : PollClient :=
  match o with
  | PollSuccess => mkPollClient 2000 (pollPeriod c)
  | PollNoSuccess => c
  | PollError => mkPollClient (Z.min (pollDelay c * 3 / 2) 10000) (pollPeriod c)
  end.

(** The same callback in src/sync-client.js, which has no reset. *)
Definition poll_tick_plain (c : PollClient) (o : PollOutcome) : PollClient :=
  match o with
  | PollSuccess | PollNoSuccess => c
  | PollError => mkPollClient (Z.min (pollDelay c * 3 / 2) 10000) (pollPeriod c)
  end.

Definition run_ticks (tick : PollClient -> PollOutcome -> PollClient)
  (c : PollClient) (os : list PollOutcome) : PollClient :=
  fold_left tick os c.

(** ** Scenarios used by the concrete statements below *)

Definition scenario_player (n : string) : Player := mkPlayer n true None None.

Definition five_sessions : list string :=
  ["s1"; "s2"; "s3"; "s4"; "s5"]%string.

(** A room created at time 0 into which five sessions joined at time 5. *)
Definition room_five_joined : Room :=
  fold_left (fun r s => fst (join_room 5 s r)) five_sessions (new_room "ROOM01" 0).

(** Each session submits one active player through the array endpoint. *)
Definition submit_one (now : Z) (r : Room) (s : string) : Room :=
  fst (sync_players_array now s [scenario_player s] r).

Definition room_four_submitted : Room :=
  fold_left (submit_one 10) (firstn 4 five_sessions) room_five_joined.

Definition room_five_submitted : Room :=
  fold_left (submit_one 10) five_sessions room_five_joined.

(** A session whose dice roll is recorded by the scenario of the spec. *)
Definition room_after_roll : Room :=
  fst (sync_dice 20 "s1" [3; 5]%Z room_five_joined).

(** A room whose log holds exactly 50 entries. *)
Definition room_full_log : Room :=
  Nat.iter 50 (fun r => addMessage 1 (DiceRoll [1%Z]) "s1" r) room_five_joined.

(** The participant records still inside the 5-minute window. *)
Definition is_fresh (cutoff : Z) (kp : string * Participant) : bool :=
  negb (Z.ltb (lastSeen (snd kp)) cutoff).

(** [activePlayersFromOtherSessions] as [updatePlayerData] computes it. *)
Definition active_other (sid : string) (r : Room) : nat :=
  count_active (concat (map_values (map_delete sid (players r)))).

(** Every record stored under a key names that key as its owner. *)
Definition well_owned (r : Room) : Prop :=
  forall k ps p, In (k, ps) (players r) -> In p ps -> pSessionId p = Some k.

(** Rooms reachable by [/create-room], [/join-room] and [/leave-room]. *)
Inductive jl_reachable : Room -> Prop :=
| jl_new : forall rid now, jl_reachable (new_room rid now)
| jl_create : forall rid now sid,
    jl_reachable (addParticipant now sid (new_room rid now))
| jl_join : forall now sid r,
    jl_reachable r -> jl_reachable (fst (join_room now sid r))
| jl_leave : forall now sid r r',
    jl_reachable r -> leave_room now sid r = Some r' -> jl_reachable r'.

(** ** The room registry ([const rooms = new Map()]) and its handlers *)

Definition Registry := list (string * Room).

Definition one_hour : Z := 60 * 60 * 1000.

(** [isExpired()] *)
Definition isExpired (now : Z) (r : Room) : bool :=
  Z.ltb (lastActivity r) (now - one_hour).

(** The test of [cleanupRooms] for one room: [room.isEmpty() ||
    room.isExpired()]; [isEmpty] purges the room object in place, so a room
    that stays in the map is the purged one ([Some]); [None] is deletion. *)
Definition cleanup_verdict (now : Z) (room : Room) : option Room :=
  let '(room', empty) := isEmpty now room in
  if empty || isExpired now room' then None else Some room'.

(** The [for (const [roomId, room] of rooms)] loop of [cleanupRooms]. *)
Fixpoint cleanup_loop (now : Z) (snapshot : Registry) (rooms : Registry) : Registry :=
  match snapshot with
  | [] => rooms
  | (rid, room) :: t =>
      cleanup_loop now t
        (match cleanup_verdict now room with
         | None => map_delete rid rooms
         | Some room' => map_set rid room' rooms
         end)
  end.

Definition cleanupRooms (now : Z) (rooms : Registry) : Registry :=
  cleanup_loop now rooms rooms.

(** The [do { roomId = generateRoomId(); } while (rooms.has(roomId))] loop
    of [/create-room], over the codes [generateRoomId] draws in turn;
    [None] when the given draws are all taken (the loop would go on). *)
Fixpoint pick_room_id (candidates : list string) (rooms : Registry) : option string :=
  match candidates with
  | [] => None
  | c :: t => if map_has c rooms then pick_room_id t rooms else Some c
  end.

Record CreateResponse := mkCreateResponse {
  cr_roomId : string;
  cr_sessionId : string;
  cr_participantCount : nat;
  cr_activePlayerCount : nat
}.

(** [/create-room]: [sid] is the generated session id; the count in the
    response is taken on the room object already stored in the map. *)
Definition create_room (now : Z) (candidates : list string) (sid : string)
  (rooms : Registry) : option (Registry * CreateResponse) :=
  match pick_room_id candidates rooms with
  | None => None
  | Some rid =>
      let room := addParticipant now sid (new_room rid now) in
      let rooms1 := map_set rid room rooms in
      let '(room', cnt) := getParticipantCount now room in
      Some (map_set rid room' rooms1,
            mkCreateResponse rid sid cnt (getActivePlayerCount room'))
  end.

(** [/join-room] on the registry: [None] is the 404 response. *)
Definition join_room_handler (now : Z) (sid roomId : string) (rooms : Registry)
  : Registry * option nat :=
  match map_get roomId rooms with
  | None => (rooms, None)
  | Some room =>
      let '(room', cnt) := join_room now sid room in
      (map_set roomId room' rooms, Some cnt)
  end.

(** [/leave-room] on the registry (always answers success). *)
Definition leave_room_handler (now : Z) (sid roomId : string) (rooms : Registry)
  : Registry :=
  match map_get roomId rooms with
  | None => rooms
  | Some room =>
      match leave_room now sid room with
      | None => map_delete roomId rooms
      | Some room' => map_set roomId room' rooms
      end
  end.

(** [GET /room/:id] on an existing room: the response carries
    [(participantCount, activePlayerCount, players)]. *)
Definition room_info (now : Z) (r : Room) : Room * (nat * nat * list Player) :=
  let '(r', cnt) := getParticipantCount now r in
  (r', (cnt, getActivePlayerCount r', getPlayerData r')).

(** A sequence of [addMessage] calls, each [(now, payload, fromSession)]. *)
Definition add_events (evs : list (Z * Payload * string)) (r : Room) : Room :=
  fold_left (fun rr ev => let '(now, pl, from) := ev in addMessage now pl from rr) evs r.

(** The log entries those calls create. *)
Definition event_messages (evs : list (Z * Payload * string)) : list Message :=
  map (fun ev => let '(now, pl, from) := ev in mkMessage pl from now) evs.

(** Two rooms: the five-session room and a room nobody joined. *)
Definition registry_scenario : Registry :=
  [("ROOM01", room_five_joined); ("EMPTY1", new_room "EMPTY1" 0)]%string.

(** ** [handleMessage] of the polling clients

    The callbacks a message triggers; [onDice], [onTimer] and [onPlayers]
    say whether [onDiceReceived], [onTimerSync] and [onPlayersReceived]
    are set. *)
Inductive ClientEffect :=
| DiceCallback (values : list Z)
| TimerCallback (t : TimerState)
| PlayersCallback (ps : list Player)
| DiceNotification
| PlayersNotification.

Record ClientCallbacks := mkClientCallbacks {
  onDice : bool;
  onTimer : bool;
  onPlayers : bool
}.

(** src/unnamed/part_001 *)
Definition handleMessage (cb : ClientCallbacks) (m : Message) : list ClientEffect :=
  match payload m with
  | DiceRoll vs => (if onDice cb then [DiceCallback vs] else []) ++ [DiceNotification]
  | TimerSync t => if onTimer cb then [TimerCallback t] else []
  | PlayersUpdate ps => (if onPlayers cb then [PlayersCallback ps] else []) ++ [PlayersNotification]
  end.

(** src/sync-client.js: no [players-update] case, it falls to [default]. *)
Definition handleMessage_plain (cb : ClientCallbacks) (m : Message) : list ClientEffect :=
  match payload m with
  | DiceRoll vs => (if onDice cb then [DiceCallback vs] else []) ++ [DiceNotification]
  | TimerSync t => if onTimer cb then [TimerCallback t] else []
  | PlayersUpdate _ => []
  end.

(** [response.messages.forEach(message => this.handleMessage(message))] *)
Definition handleMessages (h : ClientCallbacks -> Message -> list ClientEffect)
  (cb : ClientCallbacks) (ms : list Message) : list ClientEffect :=
  flat_map (h cb) ms.

(** The values [pollDelay] takes from 2000 under the backoff rule. *)
Definition backoff_values : list Z := [2000; 3000; 4500; 6750; 10000]%Z.

(** A key that [getParticipantCount] deletes: it has a participant record
    in the snapshot [ps] last seen before [cutoff]. *)
Definition stale_key (cutoff : Z) (ps : list (string * Participant)) (k : string) : bool :=
  existsb (fun kp => String.eqb (fst kp) k && Z.ltb (lastSeen (snd kp)) cutoff) ps.

(** A decision procedure for [well_owned]. *)
Definition owner_is (k : string) (p : Player) : bool :=
  match pSessionId p with Some s => String.eqb s k | None => false end.

Definition well_owned_b (r : Room) : bool :=
  forallb (fun kps => forallb (owner_is (fst kps)) (snd kps)) (players r).

(** ** Facts about the JS [Map] model *)

Ltac str_cases :=
  repeat match goal with
  | |- context [String.eqb ?a ?b] =>
      destruct (String.eqb_spec a b); subst; simpl in *; try congruence
  end.

Section MapFacts.
Context {V : Type}.
Implicit Types (m : list (string * V)) (k : string) (v : V).

Lemma map_get_delete_same k m : map_get k (map_delete k m) = None.
Proof.
  induction m as [|[k' v'] t IH]; unfold map_delete in *; simpl; [reflexivity|].
  str_cases.
Qed.

Lemma map_get_delete_other k k' m :
  k <> k' -> map_get k' (map_delete k m) = map_get k' m.
Proof.
  intros Hne; induction m as [|[k0 v0] t IH]; unfold map_delete in *; simpl;
    [reflexivity|].
  str_cases.
Qed.

Lemma map_get_set_same k v m : map_get k (map_set k v m) = Some v.
Proof.
  induction m as [|[k' v'] t IH]; simpl; str_cases.
Qed.

Lemma map_get_set_other k k' v m :
  k <> k' -> map_get k' (map_set k v m) = map_get k' m.
Proof.
  intros Hne; induction m as [|[k0 v0] t IH]; simpl; str_cases.
Qed.

Lemma map_get_None_keys k m : map_get k m = None <-> ~ In k (map_keys m).
Proof.
  induction m as [|[k' v'] t IH]; simpl.
  - tauto.
  - unfold map_keys in *; simpl.
    destruct (String.eqb_spec k k') as [->|Hne].
    + split; [discriminate | intros H; exfalso; apply H; left; reflexivity].
    + rewrite IH. split.
      * intros H [E|E]; [congruence | tauto].
      * intros H Hin; apply H; right; exact Hin.
Qed.

Lemma map_set_absent k v m :
  map_get k m = None -> map_set k v m = m ++ [(k, v)].
Proof.
  induction m as [|[k' v'] t IH]; simpl; intros H; [reflexivity|].
  str_cases. rewrite IH by exact H. reflexivity.
Qed.

Lemma map_delete_idem k m : map_delete k (map_delete k m) = map_delete k m.
Proof.
  induction m as [|[k' v'] t IH]; unfold map_delete in *; simpl; [reflexivity|].
  str_cases; rewrite IH; reflexivity.
Qed.

Lemma map_delete_notin k m : ~ In k (map_keys m) -> map_delete k m = m.
Proof.
  induction m as [|[k' v'] t IH]; unfold map_delete in *; simpl; intros H;
    [reflexivity|].
  str_cases; [tauto|]. rewrite IH by tauto. reflexivity.
Qed.

Lemma map_get_None_delete k k' m :
  map_get k m = None -> map_get k (map_delete k' m) = None.
Proof.
  destruct (String.eqb_spec k' k) as [->|Hne]; intros H.
  - apply map_get_delete_same.
  - rewrite map_get_delete_other by exact Hne. exact H.
Qed.

Lemma map_keys_filter_nodup (f : string * V -> bool) m :
  NoDup (map_keys m) -> NoDup (map_keys (filter f m)).
Proof.
  induction m as [|[k' v'] t IH]; simpl; intros H; [constructor|].
  inversion H as [|? ? Hnotin Hnd]; subst.
  destruct (f (k', v')); simpl; [|auto].
  constructor; [|auto].
  intros Hin; apply Hnotin; unfold map_keys in *.
  apply in_map_iff in Hin as [[x y] [Ex Hx]]; simpl in Ex; subst.
  apply filter_In in Hx as [Hx _].
  apply (in_map fst) in Hx; exact Hx.
Qed.

Lemma map_keys_set_in x k v m :
  In x (map_keys (map_set k v m)) -> x = k \/ In x (map_keys m).
Proof.
  induction m as [|[k' v'] t IH]; simpl.
  - intuition.
  - str_cases; intuition.
Qed.

Lemma map_keys_set_nodup k v m :
  NoDup (map_keys m) -> NoDup (map_keys (map_set k v m)).
Proof.
  induction m as [|[k' v'] t IH]; simpl; intros H.
  - repeat constructor; simpl; tauto.
  - inversion H as [|? ? Hnotin Hnd]; subst.
    unfold map_keys in *; simpl.
    destruct (String.eqb_spec k k') as [->|Hne]; simpl; [exact H|].
    constructor; [|auto].
    intros Hin; apply map_keys_set_in in Hin as [E|E]; [congruence | tauto].
Qed.
End MapFacts.

(** ** Facts about the room methods *)

Section PurgeFacts.
Variable cutoff : Z.

Lemma purge_stale_frame ps r :
  messages (purge_stale cutoff ps r) = messages r /\
  currentDiceValues (purge_stale cutoff ps r) = currentDiceValues r /\
  timerState (purge_stale cutoff ps r) = timerState r.
Proof.
  revert r; induction ps as [|[k p] t IH]; intros r; simpl; [auto|].
  destruct (IH (if Z.ltb (lastSeen p) cutoff
                then set_players (map_delete k (players r))
                       (set_participants (map_delete k (participants r)) r)
                else r)) as (A & B & C).
  rewrite A, B, C; destruct (Z.ltb (lastSeen p) cutoff); auto.
Qed.

Lemma purge_stale_players_none ps r k :
  map_get k (players r) = None ->
  map_get k (players (purge_stale cutoff ps r)) = None.
Proof.
  revert r; induction ps as [|[k' p] t IH]; intros r H; simpl; [exact H|].
  apply IH; destruct (Z.ltb (lastSeen p) cutoff); simpl;
    [apply map_get_None_delete|]; exact H.
Qed.

Lemma purge_stale_players_stale ps r k p :
  In (k, p) ps -> (lastSeen p < cutoff)%Z ->
  map_get k (players (purge_stale cutoff ps r)) = None.
Proof.
  revert r; induction ps as [|[k' p'] t IH]; intros r Hin Hlt; simpl;
    [destruct Hin|].
  destruct Hin as [E|Hin].
  - injection E as <- <-.
    apply purge_stale_players_none.
    apply Z.ltb_lt in Hlt; rewrite Hlt; simpl.
    apply map_get_delete_same.
  - apply IH; assumption.
Qed.

Lemma purge_stale_participants ps acc r :
  NoDup (map_keys (acc ++ ps)) ->
  participants r = acc ++ ps ->
  participants (purge_stale cutoff ps r) = acc ++ filter (is_fresh cutoff) ps.
Proof.
  revert acc r; induction ps as [|[k p] t IH]; intros acc r Hnd Hp; simpl.
  - exact Hp.
  - unfold is_fresh at 1; simpl.
    destruct (Z.ltb (lastSeen p) cutoff) eqn:Hlt; simpl.
    + apply IH.
      * unfold map_keys in *; rewrite map_app in *; simpl in Hnd.
        eapply NoDup_remove_1; exact Hnd.
      * simpl; rewrite Hp.
        unfold map_keys in Hnd; rewrite map_app in Hnd; simpl in Hnd.
        apply NoDup_remove_2 in Hnd; rewrite in_app_iff in Hnd.
        unfold map_delete; rewrite filter_app; simpl.
        rewrite String.eqb_refl; simpl.
        fold (map_delete k acc) (map_delete k t).
        rewrite !map_delete_notin by (unfold map_keys; tauto).
        reflexivity.
    + rewrite (IH (acc ++ [(k, p)]) r).
      * rewrite <- app_assoc; reflexivity.
      * rewrite <- app_assoc; exact Hnd.
      * rewrite <- app_assoc; exact Hp.
Qed.
End PurgeFacts.

Lemma getParticipantCount_participants now r :
  NoDup (map_keys (participants r)) ->
  participants (fst (getParticipantCount now r)) =
  filter (is_fresh (now - five_minutes)) (participants r).
Proof.
  intros Hnd; unfold getParticipantCount; simpl.
  apply (purge_stale_participants _ _ [] r); simpl; [exact Hnd | reflexivity].
Qed.

Lemma addMessage_frame now pl from r :
  participants (addMessage now pl from r) = participants r /\
  players (addMessage now pl from r) = players r /\
  currentDiceValues (addMessage now pl from r) = currentDiceValues r /\
  timerState (addMessage now pl from r) = timerState r.
Proof. repeat split. Qed.

Lemma addMessage_last now pl from r :
  exists pre, messages (addMessage now pl from r) = pre ++ [mkMessage pl from now].
Proof.
  unfold addMessage; simpl.
  destruct (Nat.ltb 50 _).
  - unfold slice_last; rewrite skipn_app, length_app; simpl.
    replace (length (messages r) + 1 - 50 - length (messages r)) with 0 by lia.
    eexists; reflexivity.
  - eexists; reflexivity.
Qed.

Lemma updateParticipant_frame now sid r :
  players (updateParticipant now sid r) = players r /\
  messages (updateParticipant now sid r) = messages r /\
  currentDiceValues (updateParticipant now sid r) = currentDiceValues r /\
  timerState (updateParticipant now sid r) = timerState r.
Proof.
  unfold updateParticipant; destruct (map_get sid (participants r)); repeat split.
Qed.

Lemma updateParticipant_unknown now sid r :
  map_get sid (participants r) = None -> updateParticipant now sid r = r.
Proof. unfold updateParticipant; intros ->; reflexivity. Qed.

Lemma getParticipantCount_frame now r :
  messages (fst (getParticipantCount now r)) = messages r /\
  currentDiceValues (fst (getParticipantCount now r)) = currentDiceValues r /\
  timerState (fst (getParticipantCount now r)) = timerState r.
Proof. apply purge_stale_frame. Qed.

Lemma getParticipantCount_nodup now r :
  NoDup (map_keys (participants r)) ->
  NoDup (map_keys (participants (fst (getParticipantCount now r)))).
Proof.
  intros H; rewrite getParticipantCount_participants by exact H.
  apply map_keys_filter_nodup; exact H.
Qed.

Lemma poll_messages now sid since r :
  messages (fst (poll now sid since r)) = messages r.
Proof.
  unfold poll; simpl.
  rewrite (proj1 (purge_stale_frame _ _ _)).
  apply updateParticipant_frame.
Qed.

Lemma poll_response_messages now sid since r :
  resp_messages (snd (poll now sid since r)) =
  filter (fun msg => negb (String.eqb (fromSession msg) sid))
         (getRecentMessages since (messages r)).
Proof.
  unfold poll; simpl.
  rewrite (proj1 (proj2 (updateParticipant_frame now sid r))); reflexivity.
Qed.

(** Effect of the [/sync-players] handler on the players map: each
    single-object call of [updatePlayerData] only deletes the caller's entry. *)
Lemma sync_players_fold_players now sid ps rr X :
  players rr = map_delete sid X ->
  players (fold_left
             (fun rr playerData =>
                updatePlayerData now sid
                  (PObj (mkPlayer (pname playerData) (handler_isActive sid rr)
                                  (Some sid) (pLastUpdated playerData))) rr)
             ps rr) = map_delete sid X.
Proof.
  revert rr; induction ps as [|p t IH]; intros rr H; simpl; [exact H|].
  apply IH; simpl; rewrite H; apply map_delete_idem.
Qed.

Lemma addMessage_messages_ext now pl from r r' :
  messages r = messages r' ->
  messages (addMessage now pl from r) = messages (addMessage now pl from r').
Proof. unfold addMessage; simpl; intros ->; reflexivity. Qed.

Lemma sync_players_effect now sid ps r :
  0 < length ps ->
  map_get sid (players (fst (sync_players now sid ps r))) = None /\
  messages (fst (sync_players now sid ps r)) =
  messages (addMessage now
              (PlayersUpdate (concat (map_values (map_delete sid (players r))))) sid r).
Proof.
  intros Hlen; destruct ps as [|p t]; [simpl in Hlen; lia|].
  set (step := fun rr playerData =>
                 updatePlayerData now sid
                   (PObj (mkPlayer (pname playerData) (handler_isActive sid rr)
                                   (Some sid) (pLastUpdated playerData))) rr).
  set (r1 := updateParticipant now sid r).
  assert (Hp : players (fold_left step t (step r1 p)) = map_delete sid (players r)).
  { apply sync_players_fold_players; simpl.
    unfold r1; rewrite (proj1 (updateParticipant_frame now sid r)); reflexivity. }
  assert (Hm : messages (fold_left step t (step r1 p)) = messages r).
  { transitivity (messages r1); [|apply updateParticipant_frame].
    change (messages r1) with (messages (step r1 p)).
    clear Hp Hlen; generalize (step r1 p) as rr; induction t as [|q u IH]; intros rr.
    - reflexivity.
    - cbn [fold_left]; rewrite IH; reflexivity. }
  assert (E : fst (sync_players now sid (p :: t) r) =
              fst (getParticipantCount now
                     (addMessage now (PlayersUpdate (getPlayerData (fold_left step t (step r1 p))))
                                 sid (fold_left step t (step r1 p))))) by reflexivity.
  rewrite E; clear E; revert Hp Hm.
  generalize (fold_left step t (step r1 p)) as r2; intros r2 Hp Hm.
  unfold getParticipantCount; simpl; split.
  - apply purge_stale_players_none; simpl.
    rewrite Hp; apply map_get_delete_same.
  - rewrite (proj1 (purge_stale_frame _ _ _)).
    unfold getPlayerData; rewrite Hp.
    apply addMessage_messages_ext; exact Hm.
Qed.

Lemma addMessage_messages now pl from r :
  messages (addMessage now pl from r) =
  let msgs := messages r ++ [mkMessage pl from now] in
  if Nat.ltb 50 (length msgs) then slice_last 50 msgs else msgs.
Proof. reflexivity. Qed.

Lemma jl_reachable_nodup r :
  jl_reachable r -> NoDup (map_keys (participants r)).
Proof.
  induction 1 as [rid now|rid now sid|now sid r _ IH|now sid r r' _ IH Hleave].
  - simpl; constructor.
  - simpl; repeat constructor; simpl; tauto.
  - unfold join_room; apply getParticipantCount_nodup; simpl.
    apply map_keys_set_nodup; exact IH.
  - unfold leave_room, isEmpty in Hleave.
    destruct (getParticipantCount now _) as [r3 n] eqn:Hc.
    destruct (Nat.eqb n 0); [discriminate|].
    injection Hleave as <-.
    replace r3 with (fst (getParticipantCount now
                            (addMessage now (PlayersUpdate (getPlayerData (removeParticipant now sid r)))
                                        sid (removeParticipant now sid r))))
      by (rewrite Hc; reflexivity).
    apply getParticipantCount_nodup; simpl.
    apply map_keys_filter_nodup; exact IH.
Qed.

(** ** Claims *)

(** C5: [getRecentMessages] without a watermark returns the last
    [min 10 n] events of the log (a suffix of it); with a watermark [t] it
    returns the events with [timestamp > t], in log order, and only those;
    [/poll] leaves the log untouched, so a repeated call with the same
    watermark sees the same log and returns the same events. *)
Theorem getRecentMessages_spec :
  forall msgs : list Message,
    (exists pre, msgs = pre ++ getRecentMessages None msgs /\
                 length (getRecentMessages None msgs) = Nat.min 10 (length msgs)) /\
    (forall t, getRecentMessages (Some t) msgs =
               filter (fun m => Z.ltb t (timestamp m)) msgs /\
               (forall m, In m (getRecentMessages (Some t) msgs) <->
                          In m msgs /\ (t < timestamp m)%Z)) /\
    (forall now sid since since' r,
        getRecentMessages since' (messages (fst (poll now sid since r))) =
        getRecentMessages since' (messages r)).
Proof.
  intros msgs; split; [|split].
  - exists (firstn (length msgs - 10) msgs); unfold getRecentMessages, slice_last; split.
    + symmetry; apply firstn_skipn.
    + rewrite length_skipn.
      destruct (Nat.le_ge_cases 10 (length msgs));
        [rewrite Nat.min_l | rewrite Nat.min_r]; lia.
  - intros t; simpl; split; [reflexivity|].
    intros m; rewrite filter_In, Z.ltb_lt; tauto.
  - intros; rewrite poll_messages; reflexivity.
Qed.

(** C6: after [addMessage] the log holds at most 50 entries; appending to
    a log of exactly 50 drops the oldest and puts the new entry last. *)
Theorem addMessage_log_bounded :
  forall now pl from r,
    length (messages (addMessage now pl from r)) <= 50 /\
    (length (messages r) = 50 ->
     messages (addMessage now pl from r) = tl (messages r) ++ [mkMessage pl from now]).
Proof.
  intros now pl from r; rewrite addMessage_messages; cbv zeta.
  rewrite length_app; simpl; split.
  - destruct (Nat.ltb_spec 50 (length (messages r) + 1)) as [H|H].
    + unfold slice_last; rewrite length_skipn, length_app; simpl; lia.
    + rewrite length_app; simpl; lia.
  - intros H; rewrite H; simpl.
    unfold slice_last; rewrite length_app, H; simpl.
    destruct (messages r) as [|m0 rest]; [discriminate|reflexivity].
Qed.

Lemma addMessage_log_bounded_witness :
  length (messages room_full_log) = 50 /\
  messages (addMessage 2 (DiceRoll [6%Z]) "s2" room_full_log) =
  tl (messages room_full_log) ++ [mkMessage (DiceRoll [6%Z]) "s2" 2].
Proof.
  split; [vm_compute; reflexivity|].
  apply (proj2 (addMessage_log_bounded 2 (DiceRoll [6%Z]) "s2" room_full_log)).
  vm_compute; reflexivity.
Defined.

(** C7: the events a poll returns are [getRecentMessages since] of the
    log with every event of the caller removed, the response carries the
    request's own time as watermark; after [s1] rolls [3; 5], [s1] polling
    without watermark gets no dice roll while [s2] gets [s1]'s roll. *)
Theorem poll_filters_own_events :
  (forall now sid since r,
      resp_messages (snd (poll now sid since r)) =
      filter (fun msg => negb (String.eqb (fromSession msg) sid))
             (getRecentMessages since (messages r)) /\
      Forall (fun m => fromSession m <> sid) (resp_messages (snd (poll now sid since r))) /\
      resp_timestamp (snd (poll now sid since r)) = now) /\
  ~ (exists m, In m (resp_messages (snd (poll 30 "s1" None room_after_roll))) /\
               msg_type m = "dice-roll"%string) /\
  (exists m, In m (resp_messages (snd (poll 30 "s2" None room_after_roll))) /\
             payload m = DiceRoll [3; 5]%Z /\ fromSession m = "s1"%string).
Proof.
  split; [|split].
  - intros now sid since r; rewrite poll_response_messages; split; [reflexivity|split].
    + apply Forall_forall; intros m Hm; apply filter_In in Hm as [_ Hm].
      destruct (String.eqb_spec (fromSession m) sid); [discriminate|assumption].
    + reflexivity.
  - vm_compute; intros (m & [] & _).
  - vm_compute; eexists; split; [left; reflexivity | split; reflexivity].
Qed.

(** C9: [updatePlayerData sid] leaves the players map unchanged once the
    entry of [sid] is set aside: every other session's entry keeps its
    records, its position and its owner. *)
Theorem updatePlayerData_frame :
  forall now sid arg r,
    map_delete sid (players (updatePlayerData now sid arg r)) =
    map_delete sid (players r) /\
    (forall s, s = sid \/
               map_get s (players (updatePlayerData now sid arg r)) =
               map_get s (players r)).
Proof.
  intros now sid arg r.
  assert (E : map_delete sid (players (updatePlayerData now sid arg r)) =
              map_delete sid (players r)).
  { unfold updatePlayerData; simpl.
    destruct arg as [ps| |]; [destruct (Nat.ltb 0 (length ps))|..];
      try apply map_delete_idem.
    rewrite map_set_absent by apply map_get_delete_same.
    unfold map_delete at 1; rewrite filter_app; simpl.
    rewrite String.eqb_refl, app_nil_r; apply map_delete_idem. }
  split; [exact E|].
  intros s; destruct (String.eqb_spec s sid) as [->|Hne]; [left; reflexivity|right].
  rewrite <- (map_get_delete_other sid s) by congruence.
  rewrite E; apply map_get_delete_other; congruence.
Qed.

(** C3: the [/sync-players] handler, which passes each player object on
    its own to [updatePlayerData], leaves the caller with no entry in the
    players map whenever it sends a non-empty array, and the
    [players-update] event it appends carries only the other sessions'
    records (none of them owned by the caller when every stored record
    names its key as owner). *)
Theorem sync_players_handler_drops_caller :
  forall now sid ps r,
    0 < length ps ->
    map_get sid (players (fst (sync_players now sid ps r))) = None /\
    (exists pre, messages (fst (sync_players now sid ps r)) =
       pre ++ [mkMessage (PlayersUpdate (concat (map_values (map_delete sid (players r)))))
                         sid now]) /\
    (well_owned r ->
     Forall (fun p => pSessionId p <> Some sid)
            (concat (map_values (map_delete sid (players r))))).
Proof.
  intros now sid ps r Hlen.
  destruct (sync_players_effect now sid ps r Hlen) as [Hnone Hmsgs].
  split; [exact Hnone|split].
  - rewrite Hmsgs; apply addMessage_last.
  - intros Hown; apply Forall_forall; intros p Hp.
    apply in_concat in Hp as (l & Hl & Hp).
    unfold map_values in Hl; apply in_map_iff in Hl as ([k l'] & El & Hkl).
    simpl in El; subst l'.
    unfold map_delete in Hkl; apply filter_In in Hkl as [Hkl Hneq]; simpl in Hneq.
    rewrite (Hown k l p Hkl Hp).
    destruct (String.eqb_spec sid k); [discriminate|congruence].
Qed.

Lemma sync_players_handler_drops_caller_witness :
  0 < length [scenario_player "p"] /\
  map_get "s1" (players room_four_submitted) <> None /\
  map_get "s1" (players (fst (sync_players 12 "s1" [scenario_player "p"] room_four_submitted))) = None.
Proof.
  split; [simpl; lia|split; [vm_compute; discriminate|]].
  apply (sync_players_handler_drops_caller 12 "s1" [scenario_player "p"] room_four_submitted).
  simpl; lia.
Defined.

(** C8: [getParticipantCount] keeps exactly the participants whose
    [lastSeen] is not older than five minutes, drops the players of every
    participant it removes and returns the number of those kept; rooms
    built by create/join/leave have pairwise distinct session ids, so the
    count is the number of sessions seen within the window. *)
Theorem getParticipantCount_counts_live :
  (forall r, jl_reachable r -> NoDup (map_keys (participants r))) /\
  (forall now r,
      NoDup (map_keys (participants r)) ->
      participants (fst (getParticipantCount now r)) =
        filter (is_fresh (now - five_minutes)) (participants r) /\
      snd (getParticipantCount now r) =
        length (filter (is_fresh (now - five_minutes)) (participants r)) /\
      NoDup (map_keys (filter (is_fresh (now - five_minutes)) (participants r))) /\
      Forall (fun kp => (lastSeen (snd kp) < now - five_minutes)%Z ->
                        map_get (fst kp) (players (fst (getParticipantCount now r))) = None)
             (participants r)).
Proof.
  split; [exact jl_reachable_nodup|].
  intros now r Hnd.
  assert (Hp := getParticipantCount_participants now r Hnd).
  split; [exact Hp|split; [|split]].
  - change (snd (getParticipantCount now r))
      with (length (participants (fst (getParticipantCount now r)))).
    rewrite Hp; reflexivity.
  - apply map_keys_filter_nodup; exact Hnd.
  - apply Forall_forall; intros [k p] Hin Hlt; simpl in *.
    unfold getParticipantCount; simpl.
    apply (purge_stale_players_stale _ _ _ _ p Hin Hlt).
Qed.

Lemma getParticipantCount_counts_live_witness :
  NoDup (map_keys (participants room_five_joined)) /\
  snd (getParticipantCount 400000 room_five_joined) = 0 /\
  participants (fst (getParticipantCount 400000 room_five_joined)) = [].
Proof.
  assert (Hnd : NoDup (map_keys (participants room_five_joined))).
  { apply (proj1 getParticipantCount_counts_live).
    unfold room_five_joined, five_sessions; cbn [fold_left].
    repeat apply jl_join; apply jl_new. }
  destruct (proj2 getParticipantCount_counts_live 400000%Z room_five_joined Hnd)
    as (Hp & Hn & _).
  split; [exact Hnd|split].
  - rewrite Hn; vm_compute; reflexivity.
  - rewrite Hp; vm_compute; reflexivity.
Defined.

Lemma count_active_app l1 l2 :
  count_active (l1 ++ l2) = count_active l1 + count_active l2.
Proof. unfold count_active; rewrite filter_app, length_app; reflexivity. Qed.

Lemma updatePlayerData_array_players now sid ps r :
  0 < length ps ->
  players (updatePlayerData now sid (PArr ps) r) =
  map_delete sid (players r) ++
  [(sid, map (fun playerData =>
                mkPlayer (pname playerData)
                         (Nat.ltb (active_other sid r) 4 || pIsActive playerData)
                         (Some sid) (Some now)) ps)].
Proof.
  intros Hlen; unfold updatePlayerData; simpl.
  apply Nat.ltb_lt in Hlen; rewrite Hlen.
  apply map_set_absent, map_get_delete_same.
Qed.

(** How [canBeActive] lets records through the cap: once at least four
    records of other sessions are active, [updatePlayerData] stores a
    submitted record active exactly when the client sent it with
    [isActive = true], so the room-wide count of active records becomes the
    other sessions' count plus the number sent active. *)
Theorem updatePlayerData_active_count_at_cap :
  forall now sid ps r,
    4 <= active_other sid r ->
    getActivePlayerCount (updatePlayerData now sid (PArr ps) r) =
    active_other sid r + count_active ps.
Proof.
  intros now sid ps r Hcap.
  destruct (Nat.ltb_spec 0 (length ps)) as [Hlen|Hlen].
  2:{ destruct ps; [|simpl in Hlen; lia].
      unfold getActivePlayerCount, getPlayerData, updatePlayerData; simpl.
      unfold active_other, count_active; simpl; lia. }
  - unfold getActivePlayerCount, getPlayerData.
    rewrite updatePlayerData_array_players by exact Hlen.
    unfold map_values; rewrite map_app, concat_app, count_active_app; simpl.
    rewrite app_nil_r; f_equal.
    assert (Hf : Nat.ltb (active_other sid r) 4 = false) by (apply Nat.ltb_ge; exact Hcap).
    rewrite Hf; clear.
    induction ps as [|q t IH]; [reflexivity|].
    unfold count_active in *; simpl in IH |- *.
    destruct (pIsActive q); simpl; rewrite IH; reflexivity.
Qed.

Lemma updatePlayerData_active_count_at_cap_witness :
  4 <= active_other "s5" room_four_submitted /\
  getActivePlayerCount
    (updatePlayerData 11 "s5" (PArr [scenario_player "s5"]) room_four_submitted) = 5.
Proof.
  assert (H : 4 <= active_other "s5" room_four_submitted) by (vm_compute; lia).
  split; [exact H|].
  rewrite (updatePlayerData_active_count_at_cap 11 "s5" [scenario_player "s5"]
             room_four_submitted H).
  vm_compute; reflexivity.
Defined.

(** C1 (code bug): five sessions each submit one active player in turn
    through [updatePlayerData]; afterwards all five records are active, the
    fifth one included, where at most four may be. *)
Lemma five_sessions_five_active :
  getActivePlayerCount room_five_submitted = 5 /\
  option_map (map pIsActive) (map_get "s5" (players room_five_submitted)) = Some [true].
Proof. split; vm_compute; reflexivity. Qed.

(** The records [updatePlayerData sid (PArr ps)] stores for [sid] are [ps]
    in order, each active exactly when fewer than four records of other
    sessions are active or the submitted record itself carries
    [isActive = true]. *)
Theorem updatePlayerData_isActive :
  forall now sid ps r,
    0 < length ps ->
    exists ups,
      map_get sid (players (updatePlayerData now sid (PArr ps) r)) = Some ups /\
      map pname ups = map pname ps /\
      map pIsActive ups =
        map (fun pd => Nat.ltb (active_other sid r) 4 || pIsActive pd) ps.
Proof.
  intros now sid ps r Hlen.
  rewrite updatePlayerData_array_players by exact Hlen.
  rewrite <- map_set_absent by apply map_get_delete_same.
  eexists; split; [apply map_get_set_same|].
  rewrite !map_map; split; reflexivity.
Qed.

Lemma updatePlayerData_isActive_witness :
  0 < length [scenario_player "s5"] /\
  map_get "s5" (players (updatePlayerData 11 "s5" (PArr [scenario_player "s5"])
                                          room_four_submitted)) <> None.
Proof.
  assert (H : 0 < length [scenario_player "s5"]) by (simpl; lia).
  split; [exact H|].
  destruct (updatePlayerData_isActive 11 "s5" [scenario_player "s5"]
              room_four_submitted H) as (ups & E & _).
  rewrite E; discriminate.
Defined.

(** C2 (code bug): with four active records in other sessions, a session
    that had no record submits an active one, and it is stored active
    although it was not active for this session before. *)
Lemma new_record_active_over_cap :
  active_other "s5" room_four_submitted = 4 /\
  map_get "s5" (players room_four_submitted) = None /\
  option_map (map pIsActive)
    (map_get "s5" (players (updatePlayerData 11 "s5" (PArr [scenario_player "s5"])
                                             room_four_submitted))) = Some [true].
Proof. repeat split; vm_compute; reflexivity. Qed.

Lemma leave_room_spec now sid r :
  NoDup (map_keys (participants r)) ->
  match leave_room now sid r with
  | Some r' =>
      participants r' =
        filter (is_fresh (now - five_minutes)) (map_delete sid (participants r)) /\
      exists pre, messages r' =
        pre ++ [mkMessage (PlayersUpdate (concat (map_values (map_delete sid (players r)))))
                          sid now]
  | None => filter (is_fresh (now - five_minutes)) (map_delete sid (participants r)) = []
  end.
Proof.
  intros Hnd.
  set (r2 := addMessage now (PlayersUpdate (getPlayerData (removeParticipant now sid r)))
                        sid (removeParticipant now sid r)).
  assert (Hnd2 : NoDup (map_keys (participants r2)))
    by (apply map_keys_filter_nodup; exact Hnd).
  assert (Hp := getParticipantCount_participants now r2 Hnd2).
  assert (E : leave_room now sid r =
              if Nat.eqb (snd (getParticipantCount now r2)) 0 then None
              else Some (fst (getParticipantCount now r2))) by reflexivity.
  rewrite E.
  destruct (Nat.eqb_spec (snd (getParticipantCount now r2)) 0) as [H0|H0].
  - change (snd (getParticipantCount now r2))
      with (length (participants (fst (getParticipantCount now r2)))) in H0.
    rewrite Hp in H0; apply length_zero_iff_nil in H0; exact H0.
  - split; [rewrite Hp; reflexivity|].
    rewrite (proj1 (getParticipantCount_frame now r2)).
    apply addMessage_last.
Qed.

Lemma sync_players_messages_last now sid ps r :
  exists pre pl, messages (fst (sync_players now sid ps r)) =
                 pre ++ [mkMessage (PlayersUpdate pl) sid now].
Proof.
  set (r2 := fold_left
               (fun rr playerData =>
                  updatePlayerData now sid
                    (PObj (mkPlayer (pname playerData) (handler_isActive sid rr)
                                    (Some sid) (pLastUpdated playerData))) rr)
               ps (updateParticipant now sid r)).
  assert (E : fst (sync_players now sid ps r) =
              fst (getParticipantCount now
                     (addMessage now (PlayersUpdate (getPlayerData r2)) sid r2)))
    by reflexivity.
  rewrite E, (proj1 (getParticipantCount_frame _ _)).
  destruct (addMessage_last now (PlayersUpdate (getPlayerData r2)) sid r2) as [pre Hpre].
  exists pre, (getPlayerData r2); exact Hpre.
Qed.

Lemma poll_room now sid since r :
  fst (poll now sid since r) = fst (getParticipantCount now (updateParticipant now sid r)).
Proof. reflexivity. Qed.

(** C4 (amended): for a session id that is not a participant,
    [updateParticipant] changes nothing, but the handlers do not check
    membership: [/sync-dice] and [/sync-timer] still store the dice values
    and the timer state stamped with that session id and append their
    event; [/sync-players] appends its [players-update] event for any
    array, and with a non-empty array drops that session's players;
    [/poll] changes the room only by the 5-minute purge every request
    performs and returns the recent events not sent by that session;
    [/leave-room] removes no participant beyond the 5-minute purge, and
    still appends a [players-update] event. *)
Theorem unknown_session_still_mutates :
  forall now sid r,
    map_get sid (participants r) = None ->
    updateParticipant now sid r = r /\
    (forall vals,
        currentDiceValues (fst (sync_dice now sid vals r)) = Some vals /\
        exists pre, messages (fst (sync_dice now sid vals r)) =
                    pre ++ [mkMessage (DiceRoll vals) sid now]) /\
    (forall ts,
        let t := mkTimerState (isRunning ts) (remainingTime ts) (duration ts)
                              (startTime ts) (Some sid) (Some now) in
        timerState (fst (sync_timer now sid ts r)) = t /\
        exists pre, messages (fst (sync_timer now sid ts r)) =
                    pre ++ [mkMessage (TimerSync t) sid now]) /\
    (forall ps,
        (exists pre pl, messages (fst (sync_players now sid ps r)) =
                        pre ++ [mkMessage (PlayersUpdate pl) sid now]) /\
        (ps <> [] ->
         map_get sid (players (fst (sync_players now sid ps r))) = None /\
         exists pre, messages (fst (sync_players now sid ps r)) =
           pre ++ [mkMessage (PlayersUpdate (concat (map_values (map_delete sid (players r)))))
                             sid now])) /\
    (forall since,
        fst (poll now sid since r) = fst (getParticipantCount now r) /\
        resp_messages (snd (poll now sid since r)) =
        filter (fun msg => negb (String.eqb (fromSession msg) sid))
               (getRecentMessages since (messages r))) /\
    (NoDup (map_keys (participants r)) ->
     match leave_room now sid r with
     | Some r' =>
         participants r' = filter (is_fresh (now - five_minutes)) (participants r) /\
         exists pre, messages r' =
           pre ++ [mkMessage (PlayersUpdate (concat (map_values (map_delete sid (players r)))))
                             sid now]
     | None => filter (is_fresh (now - five_minutes)) (participants r) = []
     end).
Proof.
  intros now sid r Hunk.
  split; [apply updateParticipant_unknown; exact Hunk|].
  split; [|split; [|split; [|split]]].
  - intros vals; unfold sync_dice; cbv zeta.
    rewrite (proj1 (proj2 (getParticipantCount_frame _ _))),
            (proj1 (getParticipantCount_frame _ _)).
    split; [reflexivity|apply addMessage_last].
  - intros ts t; unfold sync_timer; cbv zeta.
    rewrite (proj2 (proj2 (getParticipantCount_frame _ _))),
            (proj1 (getParticipantCount_frame _ _)).
    split; [reflexivity|apply addMessage_last].
  - intros ps; split; [apply sync_players_messages_last|].
    intros Hne.
    assert (Hlen : 0 < length ps) by (destruct ps; [congruence | simpl; lia]).
    destruct (sync_players_effect now sid ps r Hlen) as [Hp Hm].
    split; [exact Hp|].
    rewrite Hm; apply addMessage_last.
  - intros since; split.
    + rewrite poll_room, updateParticipant_unknown by exact Hunk; reflexivity.
    + apply poll_response_messages.
  - intros Hnd.
    assert (Hd : map_delete sid (participants r) = participants r).
    { apply map_delete_notin, map_get_None_keys; exact Hunk. }
    generalize (leave_room_spec now sid r Hnd); rewrite Hd; trivial.
Qed.

Lemma unknown_session_still_mutates_witness :
  map_get "ghost" (participants room_five_joined) = None /\
  currentDiceValues (fst (sync_dice 20 "ghost" [6%Z] room_five_joined)) = Some [6%Z].
Proof.
  assert (H : map_get "ghost" (participants room_five_joined) = None)
    by (vm_compute; reflexivity).
  split; [exact H|].
  apply (proj1 (proj1 (proj2 (unknown_session_still_mutates 20 "ghost" room_five_joined H)) [6%Z])).
Defined.

(** C4 fails as stated: a dice roll sent with a session id that is not a
    participant still replaces the dice state and appends an event. *)
Lemma unknown_session_dice_roll_recorded :
  map_get "ghost" (participants room_five_joined) = None /\
  currentDiceValues room_five_joined = None /\
  currentDiceValues (fst (sync_dice 20 "ghost" [6%Z] room_five_joined)) = Some [6%Z] /\
  length (messages (fst (sync_dice 20 "ghost" [6%Z] room_five_joined))) =
  S (length (messages room_five_joined)).
Proof. repeat split; vm_compute; reflexivity. Qed.

Lemma run_ticks_period tick c os :
  (forall c o, pollPeriod (tick c o) = pollPeriod c) ->
  pollPeriod (run_ticks tick c os) = pollPeriod c.
Proof.
  intros Ht; unfold run_ticks; revert c; induction os as [|o os IH]; intros c;
    [reflexivity|].
  simpl; rewrite IH; apply Ht.
Qed.

(** C10: the callback multiplies [pollDelay] by 1.5 up to 10 s on an error
    and (in part_001) resets it to 2 s on success, but the [setInterval]
    period is fixed when [startPolling] runs: no tick ever changes it, so
    after a failed poll the next one still comes after 2 s.  The variant in
    src/sync-client.js does not reset [pollDelay] on success either. *)
Theorem poll_backoff_never_reaches_timer :
  (forall c os,
      pollPeriod (run_ticks poll_tick c os) = pollPeriod c /\
      pollPeriod (run_ticks poll_tick_plain c os) = pollPeriod c) /\
  pollDelay (run_ticks poll_tick (startPolling new_client) [PollError]) = 3000%Z /\
  pollPeriod (run_ticks poll_tick (startPolling new_client) [PollError]) = Some 2000%Z /\
  pollDelay (run_ticks poll_tick (startPolling new_client)
               [PollError; PollError; PollError; PollError; PollError]) = 10000%Z /\
  pollDelay (run_ticks poll_tick (startPolling new_client) [PollError; PollSuccess]) = 2000%Z /\
  pollDelay (run_ticks poll_tick_plain (startPolling new_client)
               [PollError; PollSuccess]) = 3000%Z.
Proof.
  split.
  - intros c os; split; apply run_ticks_period; intros c' []; reflexivity.
  - repeat split; vm_compute; reflexivity.
Qed.

(** ** Further properties of the server and client code *)

(** *** The message log *)

Lemma slice_last_app_long {A} n (p q : list A) :
  n <= length q -> slice_last n (p ++ q) = slice_last n q.
Proof.
  intros H; unfold slice_last; rewrite length_app, skipn_app.
  rewrite skipn_all2 by lia; simpl.
  f_equal; lia.
Qed.

Lemma slice_last_short {A} n (l : list A) :
  length l <= n -> slice_last n l = l.
Proof.
  intros H; unfold slice_last; replace (length l - n) with 0 by lia; reflexivity.
Qed.

Lemma length_slice_last {A} n (l : list A) :
  length (slice_last n l) = Nat.min n (length l).
Proof. unfold slice_last; rewrite length_skipn; lia. Qed.

Lemma slice_last_slice_last_app {A} n (l q : list A) :
  slice_last n (slice_last n l ++ q) = slice_last n (l ++ q).
Proof.
  destruct (Nat.le_gt_cases (length l) n) as [H|H].
  - rewrite (slice_last_short n l H); reflexivity.
  - assert (E : l ++ q = firstn (length l - n) l ++ (slice_last n l ++ q))
      by (unfold slice_last; rewrite app_assoc, firstn_skipn; reflexivity).
    rewrite E, (slice_last_app_long n (firstn (length l - n) l)); [reflexivity|].
    rewrite length_app, length_slice_last; lia.
Qed.

(** [addMessage] keeps the last 50 entries of the log extended by the new one. *)
Lemma addMessage_messages_slice now pl from r :
  messages (addMessage now pl from r) =
  slice_last 50 (messages r ++ [mkMessage pl from now]).
Proof.
  rewrite addMessage_messages; cbv zeta.
  destruct (Nat.ltb_spec 50 (length (messages r ++ [mkMessage pl from now])))
    as [H|H]; [reflexivity|].
  symmetry; apply slice_last_short; lia.
Qed.

Lemma add_events_messages_slice evs r :
  length (messages r) <= 50 ->
  messages (add_events evs r) = slice_last 50 (messages r ++ event_messages evs).
Proof.
  unfold add_events; revert r; induction evs as [|[[now pl] from] evs IH]; intros r H.
  - simpl; rewrite app_nil_r, slice_last_short by exact H; reflexivity.
  - cbn [fold_left event_messages map]; rewrite IH.
    + rewrite addMessage_messages_slice, slice_last_slice_last_app, <- app_assoc.
      reflexivity.
    + rewrite addMessage_messages_slice, length_slice_last; lia.
Qed.

Lemma filter_skipn_nil {A} (f : A -> bool) k l :
  filter f l = [] -> filter f (skipn k l) = [].
Proof.
  revert k; induction l as [|x l IH]; intros k H; destruct k; simpl in *;
    try reflexivity; try exact H.
  apply IH; destruct (f x); [discriminate | exact H].
Qed.

Lemma filter_skipn_id {A} (f : A -> bool) k l :
  forallb f l = true -> filter f (skipn k l) = skipn k l.
Proof.
  intros H; apply forallb_filter_id; revert k.
  induction l as [|x l IH]; intros k; destruct k; simpl in *; try reflexivity;
    [exact H|].
  apply andb_true_iff in H as [_ H]; apply IH; exact H.
Qed.

(** X1: a run of [addMessage] calls on a log of at most 50 entries leaves
    exactly the last 50 entries of the old log followed by the new events,
    and [min 50 (old + new)] entries in all. *)
Theorem add_events_log_window evs r :
  length (messages r) <= 50 ->
  messages (add_events evs r) = slice_last 50 (messages r ++ event_messages evs) /\
  length (messages (add_events evs r)) = Nat.min 50 (length (messages r) + length evs).
Proof.
  intros H; rewrite add_events_messages_slice by exact H; split; [reflexivity|].
  rewrite length_slice_last, length_app; unfold event_messages; rewrite length_map.
  reflexivity.
Qed.

Lemma add_events_log_window_witness :
  length (messages room_full_log) <= 50 /\
  messages (add_events [(7%Z, DiceRoll [2%Z], "s2"%string); (8%Z, DiceRoll [3%Z], "s3"%string)]
                       room_full_log) =
    slice_last 50 (messages room_full_log ++
                   event_messages [(7%Z, DiceRoll [2%Z], "s2"%string);
                                   (8%Z, DiceRoll [3%Z], "s3"%string)]) /\
  length (messages (add_events [(7%Z, DiceRoll [2%Z], "s2"%string);
                                (8%Z, DiceRoll [3%Z], "s3"%string)] room_full_log)) =
    Nat.min 50 (length (messages room_full_log) + 2).
Proof.
  assert (H : length (messages room_full_log) <= 50) by (vm_compute; lia).
  split; [exact H|].
  apply (add_events_log_window [(7%Z, DiceRoll [2%Z], "s2"%string);
                                (8%Z, DiceRoll [3%Z], "s3"%string)] room_full_log H).
Defined.

(** X2: when the log holds at most 50 entries, all stamped at or before the
    watermark [t], and new events stamped after [t] are appended, a [/poll]
    with watermark [t] returns the last 50 of the new events, in order,
    minus those sent by the polling session; older new events are lost. *)
Theorem poll_since_after_events now sid t evs r :
  length (messages r) <= 50 ->
  Forall (fun m => (timestamp m <= t)%Z) (messages r) ->
  Forall (fun ev => (t < fst (fst ev))%Z) evs ->
  resp_messages (snd (poll now sid (Some t) (add_events evs r))) =
  filter (fun msg => negb (String.eqb (fromSession msg) sid))
         (slice_last 50 (event_messages evs)).
Proof.
  intros Hlen Hold Hnew.
  rewrite poll_response_messages; f_equal; simpl.
  rewrite add_events_messages_slice by exact Hlen.
  unfold slice_last; rewrite skipn_app, filter_app.
  rewrite filter_skipn_nil.
  - rewrite filter_skipn_id.
    + simpl; f_equal; rewrite length_app; lia.
    + clear Hold Hlen; induction Hnew as [|[[n pl] f] evs Hn _ IH]; simpl in *;
        [reflexivity|].
      apply andb_true_iff; split; [apply Z.ltb_lt; exact Hn | exact IH].
  - clear Hnew Hlen; induction Hold as [|m ms Hm _ IH]; simpl; [reflexivity|].
    destruct (Z.ltb_spec t (timestamp m)); [lia | exact IH].
Qed.

Lemma poll_since_after_events_witness :
  length (messages room_full_log) <= 50 /\
  Forall (fun m => (timestamp m <= 1)%Z) (messages room_full_log) /\
  Forall (fun ev => (1 < fst (fst ev))%Z)
         [(8%Z, DiceRoll [4%Z], "s2"%string); (9%Z, DiceRoll [6%Z], "s3"%string)] /\
  resp_messages (snd (poll 10 "s3" (Some 1%Z)
     (add_events [(8%Z, DiceRoll [4%Z], "s2"%string); (9%Z, DiceRoll [6%Z], "s3"%string)]
                 room_full_log))) =
  filter (fun msg => negb (String.eqb (fromSession msg) "s3"))
    (slice_last 50 (event_messages
       [(8%Z, DiceRoll [4%Z], "s2"%string); (9%Z, DiceRoll [6%Z], "s3"%string)])).
Proof.
  assert (H1 : length (messages room_full_log) <= 50) by (vm_compute; lia).
  assert (H2 : Forall (fun m => (timestamp m <= 1)%Z) (messages room_full_log)).
  { apply Forall_forall; intros m Hm; vm_compute in Hm.
    repeat (destruct Hm as [<-|Hm]; [vm_compute; discriminate|]); destruct Hm. }
  assert (H3 : Forall (fun ev => (1 < fst (fst ev))%Z)
                 [(8%Z, DiceRoll [4%Z], "s2"%string); (9%Z, DiceRoll [6%Z], "s3"%string)])
    by (repeat constructor).
  split; [exact H1|]; split; [exact H2|]; split; [exact H3|].
  apply (poll_since_after_events 10 "s3" 1 _ room_full_log H1 H2 H3).
Defined.

(** *** The 5-minute purge *)

Lemma filter_filter_andb {A} (f g : A -> bool) l :
  filter g (filter f l) = filter (fun x => f x && g x) l.
Proof.
  induction l as [|x l IH]; simpl; [reflexivity|].
  destruct (f x); simpl; [destruct (g x)|]; rewrite ?IH; reflexivity.
Qed.

Lemma filter_all_true {A} (l : list A) : filter (fun _ => true) l = l.
Proof. induction l as [|x l IH]; simpl; [reflexivity | rewrite IH; reflexivity]. Qed.

(** The purge deletes, from both maps, exactly the keys with a stale record. *)
Lemma purge_stale_shape c ps r :
  purge_stale c ps r =
  set_players (filter (fun kv => negb (stale_key c ps (fst kv))) (players r))
    (set_participants (filter (fun kv => negb (stale_key c ps (fst kv))) (participants r)) r).
Proof.
  revert r; induction ps as [|[k p] t IH]; intros r.
  - unfold stale_key; simpl; rewrite !filter_all_true; destruct r; reflexivity.
  - cbn [purge_stale]; rewrite IH.
    destruct (Z.ltb (lastSeen p) c) eqn:Hs.
    + unfold set_players, set_participants, map_delete; cbn.
      rewrite !filter_filter_andb.
      f_equal; apply filter_ext; intros [k' v']; unfold stale_key; cbn;
        rewrite Hs, andb_true_r, negb_orb; reflexivity.
    + unfold set_players, set_participants; cbn.
      f_equal; apply filter_ext; intros [k' v']; unfold stale_key; cbn;
        rewrite Hs, andb_false_r; reflexivity.
Qed.

Lemma existsb_filter_same {A} (f g : A -> bool) l :
  (forall x, In x l -> g x = true -> f x = true) ->
  existsb g (filter f l) = existsb g l.
Proof.
  induction l as [|x l IH]; intros H; simpl; [reflexivity|].
  destruct (f x) eqn:Hf; simpl.
  - rewrite IH by (intros y Hy; apply H; right; exact Hy); reflexivity.
  - destruct (g x) eqn:Hg.
    + rewrite (H x (or_introl eq_refl) Hg) in Hf; discriminate.
    + apply IH; intros y Hy; apply H; right; exact Hy.
Qed.

Lemma stale_key_mono c c' ps k :
  (c <= c')%Z -> stale_key c ps k = true -> stale_key c' ps k = true.
Proof.
  intros Hc; unfold stale_key; rewrite !existsb_exists.
  intros [x [Hx Hg]]; exists x; split; [exact Hx|].
  apply andb_true_iff in Hg as [Hk Hl]; apply andb_true_iff; split; [exact Hk|].
  apply Z.ltb_lt in Hl; apply Z.ltb_lt; lia.
Qed.

Lemma purge_keep_compose c c' ps k :
  (c <= c')%Z ->
  negb (stale_key c ps k) &&
  negb (stale_key c' (filter (fun kv => negb (stale_key c ps (fst kv))) ps) k) =
  negb (stale_key c' ps k).
Proof.
  intros Hc; destruct (stale_key c ps k) eqn:H1; simpl.
  - rewrite (stale_key_mono c c' ps k Hc H1); reflexivity.
  - f_equal; unfold stale_key at 1; unfold stale_key.
    apply existsb_filter_same; intros [k' v'] _ Hg; simpl in *.
    apply andb_true_iff in Hg as [Hk _]; apply String.eqb_eq in Hk; subst k'.
    unfold stale_key in H1; rewrite H1; reflexivity.
Qed.

(** X3: counting at [now] and then at a later (or the same) instant [now']
    leaves the same room and returns the same count as counting once at
    [now']; in particular [getParticipantCount] is idempotent. *)
Theorem getParticipantCount_compose now now' r :
  (now <= now')%Z ->
  getParticipantCount now' (fst (getParticipantCount now r)) = getParticipantCount now' r.
Proof.
  intros Hle.
  assert (E : purge_stale (now' - five_minutes)
                (participants (purge_stale (now - five_minutes) (participants r) r))
                (purge_stale (now - five_minutes) (participants r) r) =
              purge_stale (now' - five_minutes) (participants r) r).
  { rewrite !purge_stale_shape.
    unfold set_players, set_participants; cbn.
    rewrite !filter_filter_andb.
    f_equal; apply filter_ext; intros [k v]; cbn;
      apply purge_keep_compose; lia. }
  unfold getParticipantCount; cbn [fst]; rewrite E; reflexivity.
Qed.

Lemma getParticipantCount_compose_witness :
  (5 <= 400000)%Z /\
  getParticipantCount 400000 (fst (getParticipantCount 5 room_five_joined)) =
  getParticipantCount 400000 room_five_joined.
Proof.
  split; [lia|].
  apply (getParticipantCount_compose 5 400000 room_five_joined); lia.
Defined.

(** *** The room registry *)

Lemma purge_stale_lastActivity c ps r :
  lastActivity (purge_stale c ps r) = lastActivity r.
Proof. rewrite purge_stale_shape; reflexivity. Qed.

Lemma cleanup_loop_other now snap cur k :
  ~ In k (map_keys snap) ->
  map_get k (cleanup_loop now snap cur) = map_get k cur.
Proof.
  revert cur; induction snap as [|[rid room] t IH]; intros cur Hk; simpl; [reflexivity|].
  unfold map_keys in Hk; simpl in Hk.
  rewrite IH by tauto.
  destruct (cleanup_verdict now room);
    [apply map_get_set_other | apply map_get_delete_other]; intros E; apply Hk; left;
    exact E.
Qed.

Lemma cleanup_loop_in now snap cur k room :
  NoDup (map_keys snap) -> map_get k snap = Some room ->
  map_get k (cleanup_loop now snap cur) = cleanup_verdict now room.
Proof.
  revert cur; induction snap as [|[rid room0] t IH]; intros cur Hnd Hget;
    simpl in *; [discriminate|].
  inversion Hnd as [|? ? Hnotin Hnd']; subst.
  destruct (String.eqb_spec k rid) as [->|Hne].
  - injection Hget as ->.
    rewrite cleanup_loop_other by exact Hnotin.
    destruct (cleanup_verdict now room);
      [apply map_get_set_same | apply map_get_delete_same].
  - apply IH; assumption.
Qed.

Lemma cleanupRooms_lookup now rooms k :
  NoDup (map_keys rooms) ->
  map_get k (cleanupRooms now rooms) =
  match map_get k rooms with
  | None => None
  | Some room => cleanup_verdict now room
  end.
Proof.
  intros Hnd; unfold cleanupRooms.
  destruct (map_get k rooms) as [room|] eqn:Hg.
  - apply cleanup_loop_in; assumption.
  - rewrite cleanup_loop_other; [exact Hg|].
    apply map_get_None_keys; exact Hg.
Qed.

Lemma cleanup_verdict_Some now room room' :
  cleanup_verdict now room = Some room' <->
  room' = fst (getParticipantCount now room) /\ participants room' <> [] /\
  (now - one_hour <= lastActivity room)%Z.
Proof.
  set (r1 := purge_stale (now - five_minutes) (participants room) room).
  assert (E : cleanup_verdict now room =
              if Nat.eqb (length (participants r1)) 0 || isExpired now r1
              then None else Some r1) by reflexivity.
  assert (Ef : fst (getParticipantCount now room) = r1) by reflexivity.
  assert (Ela : lastActivity r1 = lastActivity room) by apply purge_stale_lastActivity.
  rewrite E, Ef; unfold isExpired; rewrite Ela; clearbody r1.
  destruct (Nat.eqb_spec (length (participants r1)) 0) as [H0|H0];
    destruct (Z.ltb_spec (lastActivity room) (now - one_hour)) as [H1|H1]; cbn [orb].
  - split; [discriminate|]. intros (_ & _ & H); unfold one_hour in *; lia.
  - split; [discriminate|]. intros (-> & H & _).
    apply length_zero_iff_nil in H0; contradiction.
  - split; [discriminate|]. intros (_ & _ & H); unfold one_hour in *; lia.
  - split.
    + intros Es; injection Es as <-; repeat split; [|unfold one_hour in *; lia].
      intros Ep; rewrite Ep in H0; apply H0; reflexivity.
    + intros (-> & _ & _); reflexivity.
Qed.

Lemma registry_scenario_nodup : NoDup (map_keys registry_scenario).
Proof. vm_compute; repeat constructor; simpl; intuition discriminate. Qed.

(** X4: [cleanupRooms] keeps a room under its id exactly when, after its
    5-minute purge, it still has a participant and its last activity is at
    most one hour old; the kept room is the purged one, and no other id
    gains a room. *)
Theorem cleanupRooms_spec now rooms rid room' :
  NoDup (map_keys rooms) ->
  map_get rid (cleanupRooms now rooms) = Some room' <->
  exists room, map_get rid rooms = Some room /\
               room' = fst (getParticipantCount now room) /\
               participants room' <> [] /\
               (now - one_hour <= lastActivity room)%Z.
Proof.
  intros Hnd; rewrite cleanupRooms_lookup by exact Hnd.
  destruct (map_get rid rooms) as [room|].
  - rewrite cleanup_verdict_Some; split.
    + intros H; exists room; tauto.
    + intros (room0 & E & H); injection E as <-; exact H.
  - split; [discriminate|]. intros (room0 & E & _); discriminate.
Qed.

Lemma cleanupRooms_spec_witness :
  NoDup (map_keys registry_scenario) /\
  (map_get "ROOM01" (cleanupRooms 10 registry_scenario) =
     Some (fst (getParticipantCount 10 room_five_joined)) <->
   exists room, map_get "ROOM01" registry_scenario = Some room /\
     fst (getParticipantCount 10 room_five_joined) = fst (getParticipantCount 10 room) /\
     participants (fst (getParticipantCount 10 room_five_joined)) <> [] /\
     (10 - one_hour <= lastActivity room)%Z).
Proof.
  split; [apply registry_scenario_nodup|].
  apply (cleanupRooms_spec 10 registry_scenario "ROOM01"
           (fst (getParticipantCount 10 room_five_joined)) registry_scenario_nodup).
Defined.

Lemma pick_room_id_spec cands rooms :
  match pick_room_id cands rooms with
  | Some rid => map_get rid rooms = None /\
                exists pre post, cands = pre ++ rid :: post /\
                                 Forall (fun c => map_has c rooms = true) pre
  | None => Forall (fun c => map_has c rooms = true) cands
  end.
Proof.
  induction cands as [|c t IH]; simpl; [constructor|].
  destruct (map_has c rooms) eqn:Hc.
  - destruct (pick_room_id t rooms) as [rid|].
    + destruct IH as (Hg & pre & post & -> & Hpre); split; [exact Hg|].
      exists (c :: pre), post; split; [reflexivity | constructor; assumption].
    + constructor; assumption.
  - split.
    + unfold map_has in Hc; destruct (map_get c rooms); [discriminate | reflexivity].
    + exists [], t; split; [reflexivity | constructor].
Qed.

Lemma fresh_participant_kept now sid r :
  participants r = [(sid, mkParticipant now now)] ->
  getParticipantCount now r = (r, 1).
Proof.
  intros Hp; unfold getParticipantCount; rewrite Hp; cbn [purge_stale lastSeen].
  replace (Z.ltb now (now - five_minutes)) with false
    by (symmetry; apply Z.ltb_ge; unfold five_minutes; lia).
  rewrite Hp; reflexivity.
Qed.

(** X5: [/create-room] takes the first drawn code that is not in use (it
    answers nothing while every draw is taken), stores under it a fresh room
    whose only participant is the creator, seen now, and reports one
    participant and no active player; every other room is left as it was. *)
Theorem create_room_spec now cands sid rooms :
  match create_room now cands sid rooms with
  | Some (rooms', resp) =>
      (exists pre post, cands = pre ++ cr_roomId resp :: post /\
                        Forall (fun c => map_has c rooms = true) pre) /\
      map_get (cr_roomId resp) rooms = None /\
      map_get (cr_roomId resp) rooms' =
        Some (mkRoom (cr_roomId resp) [(sid, mkParticipant now now)] None
                     (mkTimerState false 0 60 None None None) [] [] now now) /\
      cr_sessionId resp = sid /\ cr_participantCount resp = 1 /\
      cr_activePlayerCount resp = 0 /\
      (forall k, k <> cr_roomId resp -> map_get k rooms' = map_get k rooms)
  | None => Forall (fun c => map_has c rooms = true) cands
  end.
Proof.
  pose proof (pick_room_id_spec cands rooms) as Hp.
  unfold create_room; destruct (pick_room_id cands rooms) as [rid|]; [|exact Hp].
  destruct Hp as (Hfresh & Hpre).
  rewrite (fresh_participant_kept now sid (addParticipant now sid (new_room rid now)))
    by reflexivity.
  cbn [cr_roomId cr_sessionId cr_participantCount cr_activePlayerCount].
  split; [exact Hpre|]; split; [exact Hfresh|]; split.
  - apply map_get_set_same.
  - repeat split.
    intros k Hk; rewrite !map_get_set_other by congruence; reflexivity.
Qed.

Lemma map_get_filter_keep {V} (f : string * V -> bool) k v m :
  map_get k m = Some v -> f (k, v) = true -> map_get k (filter f m) = Some v.
Proof.
  induction m as [|[k' v'] t IH]; simpl; intros Hg Hf; [discriminate|].
  destruct (String.eqb_spec k k') as [->|Hne].
  - injection Hg as ->; rewrite Hf; simpl; rewrite String.eqb_refl; reflexivity.
  - destruct (f (k', v')); simpl; [|auto].
    apply String.eqb_neq in Hne; rewrite Hne; auto.
Qed.

Lemma map_get_filter_None {V} (f : string * V -> bool) k m :
  map_get k m = None -> map_get k (filter f m) = None.
Proof.
  induction m as [|[k' v'] t IH]; simpl; intros Hg; [reflexivity|].
  destruct (String.eqb k k') eqn:Hk; [discriminate|].
  destruct (f (k', v')); simpl; [rewrite Hk|]; auto.
Qed.

Lemma is_fresh_now now sid j :
  is_fresh (now - five_minutes) (sid, mkParticipant j now) = true.
Proof.
  unfold is_fresh; simpl.
  replace (Z.ltb now (now - five_minutes)) with false
    by (symmetry; apply Z.ltb_ge; unfold five_minutes; lia).
  reflexivity.
Qed.

(** X6: [/join-room] on an existing room stores the room back under its id
    with the new session present, seen now, the stale participants purged
    and the log untouched, and reports the number of remaining
    participants, at least 1; no other room changes. *)
Theorem join_room_handler_spec now sid roomId rooms room :
  map_get roomId rooms = Some room ->
  NoDup (map_keys (participants room)) ->
  exists room',
    join_room_handler now sid roomId rooms =
      (map_set roomId room' rooms, Some (length (participants room'))) /\
    participants room' =
      filter (is_fresh (now - five_minutes))
             (map_set sid (mkParticipant now now) (participants room)) /\
    map_get sid (participants room') = Some (mkParticipant now now) /\
    1 <= length (participants room') /\
    lastActivity room' = now /\ messages room' = messages room /\
    (forall k, k <> roomId ->
       map_get k (fst (join_room_handler now sid roomId rooms)) = map_get k rooms).
Proof.
  intros Hg Hnd.
  set (r1 := addParticipant now sid room).
  assert (Hnd1 : NoDup (map_keys (participants r1)))
    by (apply map_keys_set_nodup; exact Hnd).
  assert (Hp := getParticipantCount_participants now r1 Hnd1).
  assert (E : join_room_handler now sid roomId rooms =
              (map_set roomId (fst (getParticipantCount now r1)) rooms,
               Some (length (participants (fst (getParticipantCount now r1))))))
    by (unfold join_room_handler; rewrite Hg; reflexivity).
  exists (fst (getParticipantCount now r1)); rewrite E.
  assert (Hs : map_get sid (participants (fst (getParticipantCount now r1))) =
               Some (mkParticipant now now)).
  { rewrite Hp; apply map_get_filter_keep; [apply map_get_set_same | apply is_fresh_now]. }
  split; [reflexivity|]; split; [exact Hp|]; split; [exact Hs|]; split.
  - destruct (participants (fst (getParticipantCount now r1))); simpl in *;
      [discriminate | lia].
  - split.
    { change (lastActivity (purge_stale (now - five_minutes) (participants r1) r1) = now).
      rewrite purge_stale_lastActivity; reflexivity. }
    split; [apply (getParticipantCount_frame now r1)|].
    intros k Hk; simpl; apply map_get_set_other; congruence.
Qed.

Lemma join_room_handler_spec_witness :
  map_get "ROOM01" registry_scenario = Some room_five_joined /\
  NoDup (map_keys (participants room_five_joined)) /\
  exists room',
    join_room_handler 30 "s6" "ROOM01" registry_scenario =
      (map_set "ROOM01" room' registry_scenario, Some (length (participants room'))) /\
    participants room' =
      filter (is_fresh (30 - five_minutes))
             (map_set "s6" (mkParticipant 30 30) (participants room_five_joined)) /\
    map_get "s6" (participants room') = Some (mkParticipant 30 30) /\
    1 <= length (participants room') /\
    lastActivity room' = 30%Z /\ messages room' = messages room_five_joined /\
    (forall k, k <> "ROOM01"%string ->
       map_get k (fst (join_room_handler 30 "s6" "ROOM01" registry_scenario)) =
       map_get k registry_scenario).
Proof.
  assert (H1 : map_get "ROOM01" registry_scenario = Some room_five_joined) by reflexivity.
  assert (H2 : NoDup (map_keys (participants room_five_joined)))
    by (vm_compute; repeat constructor; simpl; intuition discriminate).
  split; [exact H1|]; split; [exact H2|].
  apply (join_room_handler_spec 30 "s6" "ROOM01" registry_scenario room_five_joined H1 H2).
Defined.

(** X7: [/leave-room] on an existing room either deletes the room, and
    then no participant other than the leaving one was still within the
    5-minute window, or stores back a room in which the session has neither a
    participant record nor players, whose participants are the other fresh
    ones, and whose log ends with a [players-update] event from the session
    carrying the other sessions' players; no other room changes. *)
Theorem leave_room_handler_spec now sid roomId rooms room :
  map_get roomId rooms = Some room ->
  NoDup (map_keys (participants room)) ->
  match map_get roomId (leave_room_handler now sid roomId rooms) with
  | None => filter (is_fresh (now - five_minutes)) (map_delete sid (participants room)) = []
  | Some room' =>
      map_get sid (participants room') = None /\
      map_get sid (players room') = None /\
      participants room' =
        filter (is_fresh (now - five_minutes)) (map_delete sid (participants room)) /\
      exists pre, messages room' =
        pre ++ [mkMessage (PlayersUpdate (concat (map_values (map_delete sid (players room)))))
                          sid now]
  end /\
  (forall k, k <> roomId ->
     map_get k (leave_room_handler now sid roomId rooms) = map_get k rooms).
Proof.
  intros Hg Hnd.
  pose proof (leave_room_spec now sid room Hnd) as Hl.
  assert (Hpl : forall r', leave_room now sid room = Some r' ->
                           map_get sid (players r') = None).
  { unfold leave_room, isEmpty.
    destruct (getParticipantCount now _) as [r3 n] eqn:Hc.
    intros r' Hr; destruct (Nat.eqb n 0); [discriminate|]; injection Hr as <-.
    replace r3 with (fst (getParticipantCount now
                            (addMessage now (PlayersUpdate (getPlayerData (removeParticipant now sid room)))
                                        sid (removeParticipant now sid room))))
      by (rewrite Hc; reflexivity).
    apply purge_stale_players_none; simpl; apply map_get_delete_same. }
  unfold leave_room_handler; rewrite Hg.
  destruct (leave_room now sid room) as [r'|] eqn:Hr; split.
  - rewrite map_get_set_same.
    destruct Hl as (Hp & Hm); split; [|split; [apply Hpl; reflexivity|split; assumption]].
    rewrite Hp; apply map_get_filter_None, map_get_delete_same.
  - intros k Hk; apply map_get_set_other; congruence.
  - rewrite map_get_delete_same; exact Hl.
  - intros k Hk; apply map_get_delete_other; congruence.
Qed.

Lemma leave_room_handler_spec_witness :
  map_get "ROOM01" registry_scenario = Some room_five_joined /\
  NoDup (map_keys (participants room_five_joined)) /\
  (match map_get "ROOM01" (leave_room_handler 30 "s1" "ROOM01" registry_scenario) with
   | None => filter (is_fresh (30 - five_minutes))
                    (map_delete "s1" (participants room_five_joined)) = []
   | Some room' =>
       map_get "s1" (participants room') = None /\
       map_get "s1" (players room') = None /\
       participants room' =
         filter (is_fresh (30 - five_minutes))
                (map_delete "s1" (participants room_five_joined)) /\
       exists pre, messages room' =
         pre ++ [mkMessage (PlayersUpdate (concat (map_values
                   (map_delete "s1" (players room_five_joined))))) "s1" 30]
   end /\
   (forall k, k <> "ROOM01"%string ->
      map_get k (leave_room_handler 30 "s1" "ROOM01" registry_scenario) =
      map_get k registry_scenario)).
Proof.
  assert (H1 : map_get "ROOM01" registry_scenario = Some room_five_joined) by reflexivity.
  assert (H2 : NoDup (map_keys (participants room_five_joined)))
    by (vm_compute; repeat constructor; simpl; intuition discriminate).
  split; [exact H1|]; split; [exact H2|].
  apply (leave_room_handler_spec 30 "s1" "ROOM01" registry_scenario room_five_joined H1 H2).
Defined.

Lemma getParticipantCount_keeps_fresh now r sid j :
  NoDup (map_keys (participants r)) ->
  map_get sid (participants r) = Some (mkParticipant j now) ->
  map_get sid (participants (fst (getParticipantCount now r))) = Some (mkParticipant j now) /\
  lastActivity (fst (getParticipantCount now r)) = lastActivity r.
Proof.
  intros Hnd Hg; split.
  - rewrite getParticipantCount_participants by exact Hnd.
    apply map_get_filter_keep; [exact Hg | apply is_fresh_now].
  - apply purge_stale_lastActivity.
Qed.

Lemma updateParticipant_known now sid r p :
  map_get sid (participants r) = Some p ->
  participants (updateParticipant now sid r) =
    map_set sid (mkParticipant (joinedAt p) now) (participants r) /\
  lastActivity (updateParticipant now sid r) = now.
Proof. unfold updateParticipant; intros ->; split; reflexivity. Qed.

(** X8: a [/poll], [/sync-dice] or [/sync-timer] request from a session
    that is a participant sets its [lastSeen] to now, keeping its
    [joinedAt], the participant survives the purge of the same request, and
    the room's [lastActivity] becomes now. *)
Theorem known_session_refreshed now sid r p :
  map_get sid (participants r) = Some p ->
  NoDup (map_keys (participants r)) ->
  (forall since,
     map_get sid (participants (fst (poll now sid since r))) =
       Some (mkParticipant (joinedAt p) now) /\
     lastActivity (fst (poll now sid since r)) = now) /\
  (forall vals,
     map_get sid (participants (fst (sync_dice now sid vals r))) =
       Some (mkParticipant (joinedAt p) now) /\
     lastActivity (fst (sync_dice now sid vals r)) = now) /\
  (forall ts,
     map_get sid (participants (fst (sync_timer now sid ts r))) =
       Some (mkParticipant (joinedAt p) now) /\
     lastActivity (fst (sync_timer now sid ts r)) = now).
Proof.
  intros Hg Hnd.
  destruct (updateParticipant_known now sid r p Hg) as [Hp Hla].
  assert (Hnd1 : NoDup (map_keys (participants (updateParticipant now sid r))))
    by (rewrite Hp; apply map_keys_set_nodup; exact Hnd).
  assert (Hg1 : map_get sid (participants (updateParticipant now sid r)) =
                Some (mkParticipant (joinedAt p) now))
    by (rewrite Hp; apply map_get_set_same).
  split; [|split].
  - intros since.
    assert (E : fst (poll now sid since r) =
                fst (getParticipantCount now (updateParticipant now sid r))) by reflexivity.
    rewrite E; destruct (getParticipantCount_keeps_fresh now _ sid _ Hnd1 Hg1) as [A B].
    split; [exact A | rewrite B; exact Hla].
  - intros vals.
    set (r3 := addMessage now (DiceRoll vals) sid
                 (set_dice (Some vals) (updateParticipant now sid r))).
    assert (E : fst (sync_dice now sid vals r) = fst (getParticipantCount now r3))
      by reflexivity.
    assert (La : lastActivity r3 = now) by reflexivity.
    rewrite E; destruct (getParticipantCount_keeps_fresh now r3 sid _ Hnd1 Hg1) as [A B].
    split; [exact A | rewrite B; exact La].
  - intros ts.
    set (t := mkTimerState (isRunning ts) (remainingTime ts) (duration ts)
                           (startTime ts) (Some sid) (Some now)).
    set (r3 := addMessage now (TimerSync t) sid
                 (set_timer t (updateParticipant now sid r))).
    assert (E : fst (sync_timer now sid ts r) = fst (getParticipantCount now r3))
      by reflexivity.
    assert (La : lastActivity r3 = now) by reflexivity.
    rewrite E; destruct (getParticipantCount_keeps_fresh now r3 sid _ Hnd1 Hg1) as [A B].
    split; [exact A | rewrite B; exact La].
Qed.

Lemma known_session_refreshed_witness :
  map_get "s2" (participants room_five_joined) = Some (mkParticipant 5 5) /\
  NoDup (map_keys (participants room_five_joined)) /\
  (forall since,
     map_get "s2" (participants (fst (poll 60000 "s2" since room_five_joined))) =
       Some (mkParticipant (joinedAt (mkParticipant 5 5)) 60000) /\
     lastActivity (fst (poll 60000 "s2" since room_five_joined)) = 60000%Z) /\
  (forall vals,
     map_get "s2" (participants (fst (sync_dice 60000 "s2" vals room_five_joined))) =
       Some (mkParticipant (joinedAt (mkParticipant 5 5)) 60000) /\
     lastActivity (fst (sync_dice 60000 "s2" vals room_five_joined)) = 60000%Z) /\
  (forall ts,
     map_get "s2" (participants (fst (sync_timer 60000 "s2" ts room_five_joined))) =
       Some (mkParticipant (joinedAt (mkParticipant 5 5)) 60000) /\
     lastActivity (fst (sync_timer 60000 "s2" ts room_five_joined)) = 60000%Z).
Proof.
  assert (H1 : map_get "s2" (participants room_five_joined) = Some (mkParticipant 5 5))
    by (vm_compute; reflexivity).
  assert (H2 : NoDup (map_keys (participants room_five_joined)))
    by (vm_compute; repeat constructor; simpl; intuition discriminate).
  split; [exact H1|]; split; [exact H2|].
  apply (known_session_refreshed 60000 "s2" room_five_joined (mkParticipant 5 5) H1 H2).
Defined.

Lemma stale_key_notin c ps k :
  ~ In k (map_keys ps) -> stale_key c ps k = false.
Proof.
  unfold stale_key, map_keys; induction ps as [|[k' p'] t IH]; simpl; intros H;
    [reflexivity|].
  destruct (String.eqb_spec k' k) as [->|Hne]; [tauto|]; simpl; apply IH; tauto.
Qed.

Lemma stale_key_nodup c ps k :
  NoDup (map_keys ps) ->
  stale_key c ps k =
  match map_get k ps with Some p => Z.ltb (lastSeen p) c | None => false end.
Proof.
  induction ps as [|[k' p'] t IH]; intros Hnd; [reflexivity|].
  inversion Hnd as [|? ? Hnotin Hnd']; subst.
  unfold stale_key; simpl; fold (stale_key c t k).
  destruct (String.eqb_spec k k') as [->|Hne].
  - rewrite String.eqb_refl, stale_key_notin by exact Hnotin; simpl.
    apply orb_false_r.
  - replace (String.eqb k' k) with false
      by (symmetry; apply String.eqb_neq; congruence).
    simpl; apply IH; exact Hnd'.
Qed.

(** X9: [GET /room/:id] purges the stale participants, drops the players
    of exactly those sessions (players of sessions that have no participant
    record stay), and reports the count of the rest; it changes nothing
    else: in particular it does not touch [lastActivity], so looking at a
    room does not postpone its one-hour expiry. *)
Theorem room_info_spec now r :
  NoDup (map_keys (participants r)) ->
  let '(r', (cnt, _, pl)) := room_info now r in
  participants r' = filter (is_fresh (now - five_minutes)) (participants r) /\
  players r' =
    filter (fun kv => match map_get (fst kv) (participants r) with
                      | Some p => negb (Z.ltb (lastSeen p) (now - five_minutes))
                      | None => true
                      end) (players r) /\
  cnt = length (participants r') /\ pl = getPlayerData r' /\
  lastActivity r' = lastActivity r /\ messages r' = messages r /\
  currentDiceValues r' = currentDiceValues r /\ timerState r' = timerState r /\
  id r' = id r /\ createdAt r' = createdAt r.
Proof.
  intros Hnd.
  assert (E : room_info now r =
              (fst (getParticipantCount now r),
               (length (participants (fst (getParticipantCount now r))),
                getActivePlayerCount (fst (getParticipantCount now r)),
                getPlayerData (fst (getParticipantCount now r))))) by reflexivity.
  rewrite E.
  destruct (getParticipantCount_frame now r) as (Hm & Hd & Ht).
  split; [apply getParticipantCount_participants; exact Hnd|].
  split.
  { unfold getParticipantCount; cbn [fst]; rewrite purge_stale_shape; simpl.
    apply filter_ext; intros [k v]; simpl.
    rewrite stale_key_nodup by exact Hnd.
    destruct (map_get k (participants r)); reflexivity. }
  split; [reflexivity|]; split; [reflexivity|].
  split; [apply purge_stale_lastActivity|].
  split; [exact Hm|]; split; [exact Hd|]; split; [exact Ht|].
  unfold getParticipantCount; cbn [fst]; rewrite purge_stale_shape; split; reflexivity.
Qed.

Lemma room_info_spec_witness :
  NoDup (map_keys (participants room_five_submitted)) /\
  let '(r', (cnt, _, pl)) := room_info 400000 room_five_submitted in
  participants r' =
    filter (is_fresh (400000 - five_minutes)) (participants room_five_submitted) /\
  players r' =
    filter (fun kv => match map_get (fst kv) (participants room_five_submitted) with
                      | Some p => negb (Z.ltb (lastSeen p) (400000 - five_minutes))
                      | None => true
                      end) (players room_five_submitted) /\
  cnt = length (participants r') /\ pl = getPlayerData r' /\
  lastActivity r' = lastActivity room_five_submitted /\
  messages r' = messages room_five_submitted /\
  currentDiceValues r' = currentDiceValues room_five_submitted /\
  timerState r' = timerState room_five_submitted /\
  id r' = id room_five_submitted /\ createdAt r' = createdAt room_five_submitted.
Proof.
  assert (H : NoDup (map_keys (participants room_five_submitted)))
    by (vm_compute; repeat constructor; simpl; intuition discriminate).
  split; [exact H|].
  apply (room_info_spec 400000 room_five_submitted H).
Defined.

(** X10: [/sync-dice] stores the sent values as the current dice values and
    [/sync-timer] stores the sent timer state stamped with the sender and
    the time; each leaves the other's state as it was, and each appends its
    event as the newest log entry. *)
Theorem sync_dice_timer_frame now sid r :
  (forall vals,
     currentDiceValues (fst (sync_dice now sid vals r)) = Some vals /\
     timerState (fst (sync_dice now sid vals r)) = timerState r /\
     exists pre, messages (fst (sync_dice now sid vals r)) =
                 pre ++ [mkMessage (DiceRoll vals) sid now]) /\
  (forall ts,
     let t := mkTimerState (isRunning ts) (remainingTime ts) (duration ts)
                           (startTime ts) (Some sid) (Some now) in
     timerState (fst (sync_timer now sid ts r)) = t /\
     currentDiceValues (fst (sync_timer now sid ts r)) = currentDiceValues r /\
     exists pre, messages (fst (sync_timer now sid ts r)) =
                 pre ++ [mkMessage (TimerSync t) sid now]).
Proof.
  destruct (updateParticipant_frame now sid r) as (_ & _ & Hd & Ht).
  split.
  - intros vals.
    set (r3 := addMessage now (DiceRoll vals) sid
                 (set_dice (Some vals) (updateParticipant now sid r))).
    assert (E : fst (sync_dice now sid vals r) = fst (getParticipantCount now r3))
      by reflexivity.
    rewrite E; destruct (getParticipantCount_frame now r3) as (Hm & Hd3 & Ht3).
    rewrite Hm, Hd3, Ht3; split; [reflexivity|]; split; [exact Ht|].
    apply addMessage_last.
  - intros ts t.
    set (r3 := addMessage now (TimerSync t) sid
                 (set_timer t (updateParticipant now sid r))).
    assert (E : fst (sync_timer now sid ts r) = fst (getParticipantCount now r3))
      by reflexivity.
    rewrite E; destruct (getParticipantCount_frame now r3) as (Hm & Hd3 & Ht3).
    rewrite Hm, Hd3, Ht3; split; [reflexivity|]; split; [exact Hd|].
    apply addMessage_last.
Qed.

(** *** The clients *)

Lemma backoff_step_closed d :
  In d backoff_values -> In (Z.min (d * 3 / 2) 10000) backoff_values.
Proof.
  unfold backoff_values; simpl.
  intros [<-|[<-|[<-|[<-|[<-|[]]]]]]; vm_compute; tauto.
Qed.

(** X11: from any delay the backoff can reach, in particular the initial
    2000 ms, [pollDelay] only ever takes the values 2000, 3000, 4500, 6750
    and 10000 ms, whatever the outcomes of the polls, in both clients; so
    the [* 1.5] never produces a fraction and the 10 s cap holds. *)
Theorem pollDelay_backoff_values c os :
  In (pollDelay c) backoff_values ->
  In (pollDelay (run_ticks poll_tick c os)) backoff_values /\
  In (pollDelay (run_ticks poll_tick_plain c os)) backoff_values.
Proof.
  unfold run_ticks; intros H; split; revert c H;
    induction os as [|o os IH]; intros c H; simpl; try exact H;
    apply IH; destruct o; simpl; try exact H;
    try (apply backoff_step_closed; exact H); simpl; tauto.
Qed.

Lemma pollDelay_backoff_values_witness :
  In (pollDelay (startPolling new_client)) backoff_values /\
  In (pollDelay (run_ticks poll_tick (startPolling new_client) [PollError; PollError]))
     backoff_values /\
  In (pollDelay (run_ticks poll_tick_plain (startPolling new_client) [PollError; PollError]))
     backoff_values.
Proof.
  assert (H : In (pollDelay (startPolling new_client)) backoff_values)
    by (simpl; tauto).
  split; [exact H|].
  apply (pollDelay_backoff_values (startPolling new_client) [PollError; PollError] H).
Defined.

(** X12: on the messages of a poll response, the client of
    src/sync-client.js behaves as the one of part_001 on the same messages
    with the [players-update] events removed: it drops them without calling
    [onPlayersReceived] or notifying, where part_001 calls
    [onPlayersReceived] (when set) with each event's players. *)
Theorem handleMessages_players_update cb ms :
  handleMessages handleMessage_plain cb ms =
  handleMessages handleMessage cb
    (filter (fun m => negb (String.eqb (msg_type m) "players-update")) ms) /\
  (forall ps, In (PlayersCallback ps) (handleMessages handleMessage cb ms) <->
              onPlayers cb = true /\ exists m, In m ms /\ payload m = PlayersUpdate ps) /\
  (forall ps, ~ In (PlayersCallback ps) (handleMessages handleMessage_plain cb ms)).
Proof.
  unfold handleMessages; split; [|split].
  - assert (Hm : forall m, handleMessage_plain cb m =
                           if negb (String.eqb (msg_type m) "players-update")
                           then handleMessage cb m else [])
      by (intros m; unfold handleMessage_plain, handleMessage, msg_type;
          destruct (payload m); reflexivity).
    induction ms as [|m ms IH]; [reflexivity|].
    simpl; rewrite Hm, IH; destruct (negb _); reflexivity.
  - intros ps; rewrite in_flat_map; split.
    + intros (m & Hm & Hin); unfold handleMessage in Hin.
      destruct (payload m) eqn:Hp.
      * destruct (onDice cb); simpl in Hin; intuition discriminate.
      * destruct (onTimer cb); simpl in Hin; intuition discriminate.
      * destruct (onPlayers cb) eqn:Ho; simpl in Hin; [|intuition discriminate].
        destruct Hin as [E|[E|[]]]; [|discriminate]; injection E as ->.
        split; [reflexivity|]; exists m; tauto.
    + intros (Ho & m & Hm & Hp); exists m; split; [exact Hm|].
      unfold handleMessage; rewrite Hp, Ho; simpl; tauto.
  - intros ps; rewrite in_flat_map; intros (m & _ & Hin); unfold handleMessage_plain in Hin.
    destruct (payload m); try (destruct (onDice cb)); try (destruct (onTimer cb));
      simpl in Hin; intuition discriminate.
Qed.

(** *** Ownership of the stored player records *)

Lemma in_map_set {V} (k : string) (v : V) (m : list (string * V)) k' (v' : V) :
  In (k', v') (map_set k v m) -> (k' = k /\ v' = v) \/ In (k', v') m.
Proof.
  induction m as [|[k0 v0] t IH]; simpl.
  - intros [E|[]]; injection E as -> ->; left; tauto.
  - destruct (String.eqb_spec k k0) as [->|Hne]; simpl.
    + intros [E|H]; [injection E as -> ->; left; tauto | right; right; exact H].
    + intros [E|H]; [right; left; exact E|].
      destruct (IH H) as [A|B]; [left; exact A | right; right; exact B].
Qed.

Lemma well_owned_filter f r r' :
  players r' = filter f (players r) -> well_owned r -> well_owned r'.
Proof.
  intros Hp Hw k ps p Hin Hp'; rewrite Hp in Hin.
  apply filter_In in Hin as [Hin _]; exact (Hw k ps p Hin Hp').
Qed.

Lemma updatePlayerData_well_owned now sid arg r :
  well_owned r -> well_owned (updatePlayerData now sid arg r).
Proof.
  intros Hw k ps p Hin Hp.
  assert (Hdel : forall k ps, In (k, ps) (map_delete sid (players r)) -> In (k, ps) (players r))
    by (intros k0 ps0 H; apply filter_In in H; tauto).
  unfold updatePlayerData in Hin; simpl in Hin.
  destruct arg as [l| |]; [destruct (Nat.ltb 0 (length l))|..];
    try (apply (Hw k ps p (Hdel _ _ Hin) Hp)).
  apply in_map_set in Hin as [[-> ->]|Hin]; [|exact (Hw k ps p (Hdel _ _ Hin) Hp)].
  apply in_map_iff in Hp as (pd & <- & _); reflexivity.
Qed.

Lemma getParticipantCount_well_owned now r :
  well_owned r -> well_owned (fst (getParticipantCount now r)).
Proof.
  apply well_owned_filter with (f := fun kv => negb (stale_key (now - five_minutes)
                                                   (participants r) (fst kv))).
  unfold getParticipantCount; cbn [fst]; rewrite purge_stale_shape; reflexivity.
Qed.

Lemma well_owned_same_players r r' :
  players r' = players r -> well_owned r -> well_owned r'.
Proof. intros Hp Hw k ps p; rewrite Hp; apply Hw. Qed.

Lemma well_owned_b_sound r : well_owned_b r = true -> well_owned r.
Proof.
  unfold well_owned_b; intros H k ps p Hin Hp.
  rewrite forallb_forall in H; specialize (H (k, ps) Hin); simpl in H.
  rewrite forallb_forall in H; specialize (H p Hp); unfold owner_is in H.
  destruct (pSessionId p) as [s'|]; [|discriminate].
  apply String.eqb_eq in H; subst; reflexivity.
Qed.

(** X13: every player record stored under a session's key in the players
    map names that session as its owner ([sessionId]) after
    [updatePlayerData], the purge of [getParticipantCount],
    [removeParticipant], and the [/sync-players] handler and stand-alone
    fragment, whenever it did before. *)
Theorem well_owned_preserved now sid r :
  well_owned r ->
  (forall arg, well_owned (updatePlayerData now sid arg r)) /\
  well_owned (fst (getParticipantCount now r)) /\
  well_owned (removeParticipant now sid r) /\
  (forall ps, well_owned (fst (sync_players now sid ps r))) /\
  (forall ps, well_owned (fst (sync_players_array now sid ps r))).
Proof.
  intros Hw.
  assert (Hu : well_owned (updateParticipant now sid r))
    by (apply (well_owned_same_players r); [apply updateParticipant_frame | exact Hw]).
  split; [intros arg; apply updatePlayerData_well_owned; exact Hw|].
  split; [apply getParticipantCount_well_owned; exact Hw|].
  split; [apply (well_owned_filter (fun kv => negb (String.eqb sid (fst kv))) r);
          [reflexivity | exact Hw]|].
  split.
  - intros ps.
    set (step := fun rr playerData =>
                   updatePlayerData now sid
                     (PObj (mkPlayer (pname playerData) (handler_isActive sid rr)
                                     (Some sid) (pLastUpdated playerData))) rr).
    assert (Hf : forall rr, well_owned rr -> well_owned (fold_left step ps rr)).
    { induction ps as [|q qs IH]; intros rr Hrr; simpl; [exact Hrr|].
      apply IH, updatePlayerData_well_owned, Hrr. }
    set (r2 := fold_left step ps (updateParticipant now sid r)).
    assert (E : fst (sync_players now sid ps r) =
                fst (getParticipantCount now
                       (addMessage now (PlayersUpdate (getPlayerData r2)) sid r2)))
      by reflexivity.
    rewrite E; apply getParticipantCount_well_owned.
    apply (well_owned_same_players r2); [reflexivity|].
    apply Hf, Hu.
  - intros ps.
    set (r2 := updatePlayerData now sid (PArr ps) (updateParticipant now sid r)).
    assert (E : fst (sync_players_array now sid ps r) =
                fst (getParticipantCount now
                       (addMessage now (PlayersUpdate (getPlayerData r2)) sid r2)))
      by reflexivity.
    rewrite E; apply getParticipantCount_well_owned.
    apply (well_owned_same_players r2); [reflexivity|].
    apply updatePlayerData_well_owned, Hu.
Qed.

Lemma well_owned_preserved_witness :
  well_owned room_five_submitted /\
  (forall arg, well_owned (updatePlayerData 12 "s1" arg room_five_submitted)) /\
  well_owned (fst (getParticipantCount 12 room_five_submitted)) /\
  well_owned (removeParticipant 12 "s1" room_five_submitted) /\
  (forall ps, well_owned (fst (sync_players 12 "s1" ps room_five_submitted))) /\
  (forall ps, well_owned (fst (sync_players_array 12 "s1" ps room_five_submitted))).
Proof.
  assert (H : well_owned room_five_submitted)
    by (apply well_owned_b_sound; vm_compute; reflexivity).
  split; [exact H|].
  apply (well_owned_preserved 12 "s1" room_five_submitted H).
Defined.


(** X14: [/leave-room] deletes the room from the registry when no
    participant other than the leaving session is still within the 5-minute
    window (for instance when the leaving session was the only one). *)
Theorem leave_room_handler_deletes now sid roomId rooms room :
  map_get roomId rooms = Some room ->
  NoDup (map_keys (participants room)) ->
  filter (is_fresh (now - five_minutes)) (map_delete sid (participants room)) = [] ->
  map_get roomId (leave_room_handler now sid roomId rooms) = None.
Proof.
  intros Hg Hnd H0.
  set (r2 := addMessage now (PlayersUpdate (getPlayerData (removeParticipant now sid room)))
                        sid (removeParticipant now sid room)).
  assert (Hnd2 : NoDup (map_keys (participants r2)))
    by (apply map_keys_filter_nodup; exact Hnd).
  assert (Hp := getParticipantCount_participants now r2 Hnd2).
  assert (E : leave_room now sid room =
              if Nat.eqb (snd (getParticipantCount now r2)) 0 then None
              else Some (fst (getParticipantCount now r2))) by reflexivity.
  assert (Hc : snd (getParticipantCount now r2) = 0).
  { change (length (participants (fst (getParticipantCount now r2))) = 0).
    rewrite Hp; exact (f_equal (@length _) H0). }
  unfold leave_room_handler; rewrite Hg, E, Hc; simpl.
  apply map_get_delete_same.
Qed.

Lemma leave_room_handler_deletes_witness :
  map_get "ROOM01" registry_scenario = Some room_five_joined /\
  NoDup (map_keys (participants room_five_joined)) /\
  filter (is_fresh (400000 - five_minutes))
         (map_delete "s1" (participants room_five_joined)) = [] /\
  map_get "ROOM01" (leave_room_handler 400000 "s1" "ROOM01" registry_scenario) = None.
Proof.
  assert (H1 : map_get "ROOM01" registry_scenario = Some room_five_joined) by reflexivity.
  assert (H2 : NoDup (map_keys (participants room_five_joined)))
    by (vm_compute; repeat constructor; simpl; intuition discriminate).
  assert (H3 : filter (is_fresh (400000 - five_minutes))
                      (map_delete "s1" (participants room_five_joined)) = [])
    by (vm_compute; reflexivity).
  split; [exact H1|]; split; [exact H2|]; split; [exact H3|].
  apply (leave_room_handler_deletes 400000 "s1" "ROOM01" registry_scenario
           room_five_joined H1 H2 H3).
Defined.
